(** * privateGPT: the ingestion script and the question-answering script

    A shallow embedding of [ingest.py] and [privateGPT.py].  Both scripts
    are orchestration code around external libraries (document loaders, a
    text splitter, an embedding model, a vector store, language-model
    back ends).  What an external component computes is a [Variable] of
    the section that embeds the code calling it (the loaders, [glob], the
    splitter, the embedding model, the similarity search, the language
    model, [int]), so that each statement below is about what the two
    scripts do with whatever those components return.  The few external
    calls that change the state the statements are about (the vector
    store's [from_documents] and [persist], the chain's call) are written
    out by their interface and marked as such. *)

From Stdlib Require Import ZArith Ascii.
From stdpp Require Import base list strings gmap pretty.

(** ** Python values shared by the two scripts *)

Module Py.

(** The exceptions the scripts can end with.  [ExternalError] stands for
    whatever an external library raises on its own. *)
Inductive exn : Type :=
  | ValueError (msg : string)
  | IndexError (msg : string)
  | KeyError (key : string)
  | TypeError (msg : string)
  | UnboundLocalError (name : string)
  | EOFError
  | ExternalError (msg : string).

(** [UnboundLocalError] is a subclass of [NameError]; nothing else here is. *)
Definition is_NameError (e : exn) : bool :=
  match e with UnboundLocalError _ => true | _ => false end.

Inductive result (A : Type) : Type :=
  | Ok (a : A)
  | Raise (e : exn).
Arguments Ok {A} a.
Arguments Raise {A} e.

Definition bind {A B} (r : result A) (k : A → result B) : result B :=
  match r with Ok a => k a | Raise e => Raise e end.

(** [langchain.docstore.document.Document]: text plus a metadata dict. *)
Record Document : Type := mkDocument {
  page_content : string;
  metadata : gmap string string
}.

(** [os.environ.get(key)], which is [None] for an unset variable, and
    [os.environ.get(key, default)]. *)
Definition environ_get (environ : gmap string string) (key : string)
  : option string := environ !! key.

Definition environ_get_default (environ : gmap string string)
    (key default : string) : string :=
  match environ !! key with Some v => v | None => default end.

(** The keyword settings of a vector-store client ([CHROMA_SETTINGS] of
    the [constants] module). *)
Definition Settings : Type := gmap string string.

(** How an f-string renders a value that may be [None]. *)
Definition fstr_opt (o : option string) : string :=
  match o with Some s => s | None => "None" end.

(** [s.rsplit(sep, 1)[-1]] for a one-character separator: what follows the
    last occurrence of [sep], and all of [s] when [sep] does not occur. *)
Fixpoint contains_char (sep : ascii) (s : string) : bool :=
  match s with
  | EmptyString => false
  | String c rest => if decide (c = sep) then true else contains_char sep rest
  end.

Fixpoint rsplit1_last (sep : ascii) (s : string) : string :=
  match s with
  | EmptyString => EmptyString
  | String c rest =>
      if contains_char sep rest then rsplit1_last sep rest
      else if decide (c = sep) then rest
      else s
  end.

(** [key in d] and [d[key]] on a dict kept in insertion order. *)
Fixpoint dict_get {V} (d : list (string * V)) (key : string) : option V :=
  match d with
  | [] => None
  | (k, v) :: d' => if decide (k = key) then Some v else dict_get d' key
  end.

(** [l[0]]. *)
Definition index0 {A} (l : list A) : result A :=
  match l with
  | a :: _ => Ok a
  | [] => Raise (IndexError "list index out of range")
  end.

Definition dict_keys {V} (d : list (string * V)) : list string := d.*1.

End Py.

(** ** ingest.py *)

Module Ingest.
Import Py.

(** The document-loader classes the script imports. *)
Inductive loader_class : Type :=
  | CSVLoader
  | EverNoteLoader
  | PDFMinerLoader
  | TextLoader
  | UnstructuredEmailLoader
  | UnstructuredEPubLoader
  | UnstructuredHTMLLoader
  | UnstructuredMarkdownLoader
  | UnstructuredODTLoader
  | UnstructuredPowerPointLoader
  | UnstructuredWordDocumentLoader.

Global Instance loader_class_eq_dec : EqDecision loader_class.
Proof. solve_decision. Defined.

(** Keyword arguments of a loader, as written in the mapping. *)
Definition loader_args : Type := list (string * string).

(** [LOADER_MAPPING], in the order of the dict literal. *)
Definition LOADER_MAPPING : list (string * (loader_class * loader_args)) :=
  [ (".csv", (CSVLoader, []));
    (".doc", (UnstructuredWordDocumentLoader, []));
    (".docx", (UnstructuredWordDocumentLoader, []));
    (".enex", (EverNoteLoader, []));
    (".eml", (UnstructuredEmailLoader, []));
    (".epub", (UnstructuredEPubLoader, []));
    (".html", (UnstructuredHTMLLoader, []));
    (".md", (UnstructuredMarkdownLoader, []));
    (".odt", (UnstructuredODTLoader, []));
    (".pdf", (PDFMinerLoader, []));
    (".ppt", (UnstructuredPowerPointLoader, []));
    (".pptx", (UnstructuredPowerPointLoader, []));
    (".txt", (TextLoader, [("encoding", "utf8")])) ].

(** A loader object: [loader_class(file_path, **loader_args)]. *)
Record Loader : Type := mkLoader {
  loader_cls : loader_class;
  loader_path : string;
  loader_kwargs : loader_args
}.

(** The extension [load_single_document] computes for a path. *)
Definition path_ext (file_path : string) : string :=
  "." +:+ rsplit1_last "." file_path.

Definition unsupported_message (ext : string) : string :=
  "Unsupported file extension '" +:+ ext +:+ "'".

(** [posixpath.join(a, b)] for a relative [b]. *)
Definition ends_with_slash (a : string) : bool :=
  match String.rev a with
  | String c _ => bool_decide (c = "/"%char)
  | EmptyString => false
  end.

Definition path_join (a b : string) : string :=
  if bool_decide (a = "") then b
  else if ends_with_slash a then a +:+ b
  else a +:+ "/" +:+ b.

Definition glob_pattern (source_dir ext : string) : string :=
  path_join source_dir ("**/*" +:+ ext).

(** [multiprocessing.Pool(processes=os.cpu_count() - 1)]: [os.cpu_count()]
    may be [None], and a pool needs at least one process. *)
Definition make_pool (cpu_count : option nat) : result Z :=
  match cpu_count with
  | None => Raise (TypeError "unsupported operand type(s) for -: 'NoneType' and 'int'")
  | Some n =>
      let processes := (Z.of_nat n - 1)%Z in
      if decide (processes < 1)%Z
      then Raise (ValueError "Number of processes must be at least 1")
      else Ok processes
  end.

(** The [for ... in pool.imap_unordered(f, xs)] loop that appends each
    result: the results arrive in completion order, given as the list of
    task indices in the order the tasks finish, and the first exception
    met ends the loop. *)
Fixpoint collect_unordered {A B} (f : A → result B) (xs : list A)
    (completion : list nat) (results : list B) : result (list B) :=
  match completion with
  | [] => Ok results
  | i :: rest =>
      match xs !! i with
      | None => collect_unordered f xs rest results
      | Some x =>
          match f x with
          | Ok doc => collect_unordered f xs rest (results ++ [doc])
          | Raise e => Raise e
          end
      end
  end.

Section Loading.

(** External: what [loader.load()] returns for a loader object, or the
    exception it raises. *)
Variable loader_load : Loader → result (list Document).

(** External: [glob.glob(pattern, recursive=True)] on the file system. *)
Variable glob_glob : string → list string.

(** External: [os.cpu_count()], and the order in which the worker pool
    completes its tasks. *)
Variable cpu_count : option nat.
Variable completion : list nat.

Definition load_single_document (file_path : string) : result Document :=
  let ext := path_ext file_path in
  match dict_get LOADER_MAPPING ext with
  | Some (loader_class, loader_args) =>
      let loader := mkLoader loader_class file_path loader_args in
      bind (loader_load loader) index0
  | None => Raise (ValueError (unsupported_message ext))
  end.

Definition all_files (source_dir : string) : list string :=
  foldl (λ acc ext, acc ++ glob_glob (glob_pattern source_dir ext))
        [] (dict_keys LOADER_MAPPING).

Definition load_documents (source_dir : string) : result (list Document) :=
  let files := all_files source_dir in
  bind (make_pool cpu_count) (λ _,
    collect_unordered load_single_document files completion []).

End Loading.

(** [RecursiveCharacterTextSplitter(chunk_size=..., chunk_overlap=...)]. *)
Record TextSplitter : Type := RecursiveCharacterTextSplitter {
  chunk_size : nat;
  chunk_overlap : nat
}.

(** What the script writes and what it leaves on disk: the lines given to
    [print], and for each directory the entries of the vector index
    persisted there (an embedding vector with the chunk it came from). *)
Record World (Vector : Type) : Type := mkWorld {
  stdout : list string;
  disk : gmap string (list (Vector * Document))
}.
Arguments mkWorld {Vector} stdout disk.
Arguments stdout {Vector} w.
Arguments disk {Vector} w.

(** Statements of [main] thread the world and may raise. *)
Definition M (Vector A : Type) : Type :=
  World Vector → World Vector * result A.

Definition ret {Vector A} (a : A) : M Vector A := λ w, (w, Ok a).

Definition raise {Vector A} (e : exn) : M Vector A := λ w, (w, Raise e).

Definition and_then {Vector A B} (c : M Vector A) (k : A → M Vector B)
  : M Vector B :=
  λ w, match c w with
       | (w', Ok a) => k a w'
       | (w', Raise e) => (w', Raise e)
       end.

Definition lift {Vector A} (r : result A) : M Vector A := λ w, (w, r).

Definition print {Vector} (line : string) : M Vector unit :=
  λ w, (mkWorld (stdout w ++ [line]) (disk w), Ok ()).

Declare Scope py_scope.
Delimit Scope py_scope with py.
Notation "x <- c ;; k" := (and_then c (λ x, k))
  (at level 100, c at next level, right associativity) : py_scope.
Notation "c ;; k" := (and_then c (λ _, k))
  (at level 100, right associativity) : py_scope.

(** A [Chroma] object: the directory it was created with and the entries
    of its collection. *)
Record Chroma (Vector : Type) : Type := mkChroma {
  persist_directory_of : option string;
  client_settings : Settings;
  collection : list (Vector * Document)
}.
Arguments mkChroma {Vector} _ _ _.
Arguments persist_directory_of {Vector} c.
Arguments client_settings {Vector} c.
Arguments collection {Vector} c.

Section Pipeline.

Variable loader_load : Loader → result (list Document).
Variable glob_glob : string → list string.
Variable cpu_count : option nat.
Variable completion : list nat.

(** External: [text_splitter.split_text(text)]. *)
Variable split_text : TextSplitter → string → list string.

(** External: the embedding model, from its name and a text to a vector. *)
Variable Vector : Type.
Variable embed_documents : option string → string → Vector.

(** [CHROMA_SETTINGS], imported from the [constants] module. *)
Variable CHROMA_SETTINGS : Settings.

(** External library, by its interface: [TextSplitter.split_documents]
    splits every document on its own with [split_text], in order, and each
    chunk keeps its document's metadata. *)
Definition split_documents (splitter : TextSplitter)
    (documents : list Document) : list Document :=
  documents ≫= λ doc,
    (λ chunk, mkDocument chunk (metadata doc))
      <$> split_text splitter (page_content doc).

(** External library, by its interface: [Chroma.from_documents(texts,
    embeddings, persist_directory=..., client_settings=...)] opens the
    collection kept under the directory and adds one entry per text, the
    embedding of its content together with the text. *)
Definition Chroma_from_documents (texts : list Document)
    (embeddings : string → Vector) (persist_directory : option string)
    (client_settings : Settings) : M Vector (Chroma Vector) :=
  λ w,
    let existing :=
      match persist_directory with
      | Some dir => default [] (disk w !! dir)
      | None => []
      end in
    (w, Ok (mkChroma persist_directory client_settings
              (existing ++ ((λ t, (embeddings (page_content t), t)) <$> texts)))).

(** External library, by its interface: [db.persist()] writes the
    collection under the directory the object was created with, and raises
    without one. *)
Definition Chroma_persist (db : Chroma Vector) : M Vector unit :=
  λ w,
    match persist_directory_of db with
    | None =>
        (w, Raise (ValueError
          "You must specify a persist_directory on creation to persist the collection."))
    | Some dir =>
        (mkWorld (stdout w) (<[dir := collection db]> (disk w)), Ok ())
    end.

Definition main (environ : gmap string string) : M Vector unit :=
  (let persist_directory := environ_get environ "PERSIST_DIRECTORY" in
   let source_directory :=
     environ_get_default environ "SOURCE_DIRECTORY" "source_documents" in
   let embeddings_model_name := environ_get environ "EMBEDDINGS_MODEL_NAME" in
   print ("Loading documents from " +:+ source_directory) ;;
   let chunk_size := 1000 in
   let chunk_overlap := 100 in
   documents <- lift (load_documents loader_load glob_glob cpu_count
                        completion source_directory) ;;
   let text_splitter := RecursiveCharacterTextSplitter chunk_size chunk_overlap in
   let texts := split_documents text_splitter documents in
   print ("Loaded " +:+ pretty (length documents) +:+ " documents from "
          +:+ source_directory) ;;
   print ("Split into " +:+ pretty (length texts) +:+ " chunks of text (max. "
          +:+ pretty chunk_size +:+ " characters each)") ;;
   let embeddings := embed_documents embeddings_model_name in
   print "Creating context embeddings and storing vectorstore" ;;
   db <- Chroma_from_documents texts embeddings persist_directory
           CHROMA_SETTINGS ;;
   Chroma_persist db)%py.

(** The entry the script stores for a chunk, and the lines a complete run
    prints. *)
Definition embedded (environ : gmap string string) (chunk : Document)
  : Vector * Document :=
  (embed_documents (environ_get environ "EMBEDDINGS_MODEL_NAME")
     (page_content chunk), chunk).

End Pipeline.

Definition progress_lines (environ : gmap string string)
    (documents texts : list Document) : list string :=
  let source_directory :=
    environ_get_default environ "SOURCE_DIRECTORY" "source_documents" in
  [ "Loading documents from " +:+ source_directory;
    "Loaded " +:+ pretty (length documents) +:+ " documents from "
      +:+ source_directory;
    "Split into " +:+ pretty (length texts)
      +:+ " chunks of text (max. 1000 characters each)";
    "Creating context embeddings and storing vectorstore" ].

End Ingest.

(** ** privateGPT.py *)

Module PrivateGPT.
Import Py.

(** The values bound at module level from the environment. *)
Record Config : Type := mkConfig {
  embeddings_model_name : option string;
  persist_directory : option string;
  model_type : option string;
  model_path : option string;
  model_n_ctx : option string;
  target_source_chunks : Z;
  n_gpu_layers : Z
}.

(** [parser.parse_args()]: the two [store_true] options. *)
Record Args : Type := mkArgs {
  hide_source : bool;
  mute_stream : bool
}.

(** The options [parse_arguments] declares: [--hide-source] / [-S] and
    [--mute-stream] / [-M]. *)
Inductive cli_option : Type :=
  | opt_hide_source
  | opt_mute_stream.

Global Instance cli_option_eq_dec : EqDecision cli_option.
Proof. solve_decision. Defined.

(** [parse_arguments], from the declared options argparse found on the
    command line: a [store_true] option is [False] unless it was given. *)
Definition parse_arguments (given : list cli_option) : Args :=
  mkArgs (bool_decide (opt_hide_source ∈ given))
         (bool_decide (opt_mute_stream ∈ given)).

Inductive callback : Type :=
  | StreamingStdOutCallbackHandler.

(** The language-model objects [main] can build, with the arguments each
    constructor is given. *)
Inductive LLM : Type :=
  | LlamaCpp (model_path n_ctx : option string) (callbacks : list callback)
      (verbose : bool) (n_threads n_batch n_gpu_layers max_tokens : Z)
  | GPT4All (model n_ctx : option string) (backend : string)
      (callbacks : list callback) (verbose : bool) (n_threads : Z)
  | HuggingFacePipeline (model_path : option string) (local_files_only : bool)
      (task : string) (max_length min_length : Z)
  | ChatOpenAI (model openai_api_key : option string) (streaming : bool)
      (callbacks : list callback) (verbose : bool).

(** A Python value that is either [None] or a language-model object. *)
Inductive llm_value : Type :=
  | PyNone
  | PyLLM (llm : LLM).

(** Where a back end gets its model from, as its constructor arguments
    say: a model file or directory on the local machine ([model_path], for
    the HuggingFace pipeline with [local_files_only=True]), or the OpenAI
    web API, addressed with a model name and an API key. *)
Inductive model_host : Type :=
  | LocalModelFiles
  | RemoteService.

Definition backend_host (llm : LLM) : model_host :=
  match llm with
  | LlamaCpp _ _ _ _ _ _ _ _ => LocalModelFiles
  | GPT4All _ _ _ _ _ _ => LocalModelFiles
  | HuggingFacePipeline _ local_only _ _ _ =>
      if local_only then LocalModelFiles else RemoteService
  | ChatOpenAI _ _ _ _ _ => RemoteService
  end.

(** [Chroma(persist_directory=..., embedding_function=...,
    client_settings=...)], the embedding function being
    [HuggingFaceEmbeddings(model_name=...)], and
    [db.as_retriever(search_kwargs={"k": k})]. *)
Record Chroma : Type := mkChroma {
  chroma_persist_directory : option string;
  chroma_embedding_model : option string;
  chroma_client_settings : Settings
}.

Record Retriever : Type := mkRetriever {
  vectorstore : Chroma;
  search_k : Z
}.

Definition as_retriever (db : Chroma) (k : Z) : Retriever := mkRetriever db k.

(** [RetrievalQA.from_chain_type(llm=..., chain_type=..., retriever=...,
    return_source_documents=...)]. *)
Record RetrievalQA : Type := mkRetrievalQA {
  chain_llm : LLM;
  chain_type : string;
  chain_retriever : Retriever;
  return_source_documents : bool
}.

(** The dict a chain call returns: ["result"] always, ["source_documents"]
    only when the chain was asked for them. *)
Record Answer : Type := mkAnswer {
  res_result : string;
  res_source_documents : option (list Document)
}.

(** What can be observed of a run: lines given to [print], prompts shown
    by [input], and queries handed to the chain. *)
Inductive event : Type :=
  | EPrint (line : string)
  | EInput (prompt : string)
  | EChainCall (query : string).

Global Instance event_eq_dec : EqDecision event.
Proof. solve_decision. Defined.

Definition M (A : Type) : Type := list event → list event * result A.

Definition ret {A} (a : A) : M A := λ tr, (tr, Ok a).

Definition raise {A} (e : exn) : M A := λ tr, (tr, Raise e).

Definition and_then {A B} (c : M A) (k : A → M B) : M B :=
  λ tr, match c tr with
        | (tr', Ok a) => k a tr'
        | (tr', Raise e) => (tr', Raise e)
        end.

Definition lift {A} (r : result A) : M A := λ tr, (tr, r).

Definition emit (ev : event) : M unit := λ tr, (tr ++ [ev], Ok ()).

Definition print (line : string) : M unit := emit (EPrint line).

(** [try: body except Exception as e: handler(e)]. *)
Definition try_except {A} (body : M A) (handler : exn → M A) : M A :=
  λ tr, match body tr with
        | (tr', Ok a) => (tr', Ok a)
        | (tr', Raise e) => handler e tr'
        end.

(** [str(e)] of an exception. *)
Definition exn_str (e : exn) : string :=
  match e with
  | ValueError msg | IndexError msg | TypeError msg | ExternalError msg => msg
  | KeyError key => "'" +:+ key +:+ "'"
  | UnboundLocalError name =>
      "cannot access local variable '" +:+ name
      +:+ "' where it is not associated with a value"
  | EOFError => ""
  end.

Declare Scope gpt_scope.
Delimit Scope gpt_scope with gpt.
Notation "x <- c ;; k" := (and_then c (λ x, k))
  (at level 100, c at next level, right associativity) : gpt_scope.
Notation "c ;; k" := (and_then c (λ _, k))
  (at level 100, right associativity) : gpt_scope.

(** Reading a local variable that may not have been assigned. *)
Definition read_local {A} (name : string) (v : option A) : M A :=
  match v with
  | Some a => ret a
  | None => raise (UnboundLocalError name)
  end.

(** [d[key]] for a key that may be absent. *)
Definition subscript {A} (key : string) (v : option A) : M A :=
  match v with
  | Some a => ret a
  | None => raise (KeyError key)
  end.

Definition nl : string := String (ascii_of_nat 10) EmptyString.

Definition input_prompt : string := nl +:+ "Enter a query: ".

Definition not_supported_message (model_type : option string) : string :=
  "Model " +:+ fstr_opt model_type +:+ " not supported!".

Definition source_header (source : string) : string :=
  nl +:+ "> " +:+ source +:+ ":".

Section Script.

(** [CHROMA_SETTINGS], imported from the [constants] module. *)
Variable CHROMA_SETTINGS : Settings.

(** External: Python's [int] on a string. *)
Variable py_int : string → result Z.

(** External: [from_pretrained(model_path, local_files_only=...)] of the
    named transformers class, which may raise. *)
Variable from_pretrained : string → option string → bool → result unit.

(** External: the vector store's similarity search with its [k], and the
    language model's answer for the retrieved passages and the query. *)
Variable similarity_search : Chroma → string → Z → result (list Document).
Variable llm_generate : LLM → list Document → string → result string.

(** [int(os.environ.get(key, default))] with an integer default. *)
Definition int_environ (environ : gmap string string) (key : string)
    (default : Z) : result Z :=
  match environ_get environ key with
  | Some s => py_int s
  | None => Ok default
  end.

(** The assignments at module level. *)
Definition module_init (environ : gmap string string) : result Config :=
  bind (int_environ environ "TARGET_SOURCE_CHUNKS" 4) (λ chunks,
  bind (int_environ environ "N_GPU_LAYERS" 0) (λ layers,
    Ok (mkConfig (environ_get environ "EMBEDDINGS_MODEL_NAME")
                 (environ_get environ "PERSIST_DIRECTORY")
                 (environ_get environ "MODEL_TYPE")
                 (environ_get environ "MODEL_PATH")
                 (environ_get environ "MODEL_N_CTX")
                 chunks layers))).

(** [int(model_n_ctx)] where the argument may be [None]. *)
Definition int_opt (v : option string) : result Z :=
  match v with
  | Some s => py_int s
  | None => Raise (TypeError
      "int() argument must be a string, a bytes-like object or a real number, not 'NoneType'")
  end.

Definition create_HuggingFace_pipeline (model_path model_n_ctx : option string)
  : M llm_value :=
  try_except
    (_ <- lift (from_pretrained "AutoTokenizer" model_path true) ;;
     _ <- lift (from_pretrained "AutoModelForSeq2SeqLM" model_path true) ;;
     max_length <- lift (int_opt model_n_ctx) ;;
     ret (PyLLM (HuggingFacePipeline model_path true "text2text-generation"
                   max_length 20)))%gpt
    (λ e, print (exn_str e) ;; ret PyNone)%gpt.

(** The [match model_type] statement.  The result is the binding of the
    local variable [llm] after it: [None] when no branch assigned it. *)
Definition select_llm (cfg : Config) (environ : gmap string string)
    (callbacks : list callback) : M (option llm_value) :=
  (if decide (model_type cfg = Some "LlamaCpp") then
     ret (Some (PyLLM (LlamaCpp (model_path cfg) (model_n_ctx cfg) callbacks
                         false 10 512 (n_gpu_layers cfg) 2048)))
   else if decide (model_type cfg = Some "GPT4All") then
     ret (Some (PyLLM (GPT4All (model_path cfg) (model_n_ctx cfg) "gptj"
                         callbacks false 10)))
   else if decide (model_type cfg = Some "HuggingFace") then
     llm <- create_HuggingFace_pipeline (model_path cfg) (model_n_ctx cfg) ;;
     ret (Some llm)
   else if decide (model_type cfg = Some "OpenAI") then
     ret (Some (PyLLM (ChatOpenAI (model_path cfg)
                         (environ_get environ "OPENAI_API_KEY")
                         true callbacks false)))
   else
     (* [exit] is only named, not called *)
     print (not_supported_message (model_type cfg)) ;;
     ret None)%gpt.

(** External library, by its interface: [RetrievalQA.from_chain_type]
    builds the chain from a language-model object and refuses [None]. *)
Definition from_chain_type (llm : llm_value) (chain_type : string)
    (retriever : Retriever) (return_source_documents : bool)
  : M RetrievalQA :=
  match llm with
  | PyLLM l => ret (mkRetrievalQA l chain_type retriever return_source_documents)
  | PyNone => raise (ExternalError "llm: none is not an allowed value")
  end.

(** External library, by its interface: in a chain call [qa(query)] the
    retriever asks the vector store's similarity search for [k] passages,
    the language model answers from them, and the passages are part of the
    result only when [return_source_documents] is set. *)
Definition qa_call (qa : RetrievalQA) (query : string) : M Answer :=
  (emit (EChainCall query) ;;
   docs <- lift (similarity_search (vectorstore (chain_retriever qa)) query
                   (search_k (chain_retriever qa))) ;;
   answer <- lift (llm_generate (chain_llm qa) docs query) ;;
   ret (mkAnswer answer
          (if return_source_documents qa then Some docs else None)))%gpt.

(** [for document in docs: print(...); print(...)]. *)
Fixpoint print_sources (docs : list Document) : M unit :=
  match docs with
  | [] => ret ()
  | document :: rest =>
      (source <- subscript "source" (metadata document !! "source") ;;
       print (source_header source) ;;
       print (page_content document) ;;
       print_sources rest)%gpt
  end.

(** The [while True] loop, on the lines still to come on standard input;
    [input] raises [EOFError] when there is none. *)
Fixpoint interactive_loop (qa : RetrievalQA) (args : Args)
    (stdin : list string) : M unit :=
  match stdin with
  | [] => (emit (EInput input_prompt) ;; raise EOFError)%gpt
  | query :: rest =>
      (emit (EInput input_prompt) ;;
       if decide (query = "exit") then ret ()
       else
         res <- qa_call qa query ;;
         let answer := res_result res in
         docs <- (if hide_source args then ret []
                  else subscript "source_documents" (res_source_documents res)) ;;
         print (nl +:+ nl +:+ "> Question:") ;;
         print query ;;
         print (nl +:+ "> Answer:") ;;
         print answer ;;
         print_sources docs ;;
         interactive_loop qa args rest)%gpt
  end.

Definition main (cfg : Config) (environ : gmap string string)
    (given : list cli_option) (stdin : list string) : M unit :=
  (let args := parse_arguments given in
   let db := mkChroma (persist_directory cfg) (embeddings_model_name cfg)
               CHROMA_SETTINGS in
   let retriever := as_retriever db (target_source_chunks cfg) in
   let callbacks :=
     if mute_stream args then [] else [StreamingStdOutCallbackHandler] in
   llm <- select_llm cfg environ callbacks ;;
   llm <- read_local "llm" llm ;;
   qa <- from_chain_type llm "stuff" retriever (negb (hide_source args)) ;;
   interactive_loop qa args stdin)%gpt.

(** Running the script: module level first, then [main]. *)
Definition script (environ : gmap string string) (given : list cli_option)
    (stdin : list string) : list event * result unit :=
  match module_init environ with
  | Ok cfg => main cfg environ given stdin []
  | Raise e => ([], Raise e)
  end.

End Script.

(** ** Reading a trace *)

(** The queries handed to the chain in a trace, in order. *)
Definition chain_calls (tr : list event) : list string :=
  omap (λ ev, match ev with EChainCall q => Some q | _ => None end) tr.

(** The input lines read before the first ["exit"]. *)
Fixpoint queries_before_exit (stdin : list string) : list string :=
  match stdin with
  | [] => []
  | query :: rest =>
      if decide (query = "exit") then [] else query :: queries_before_exit rest
  end.

(** The events of printing the sources of an answer. *)
Definition source_events (docs : list Document) : list event :=
  docs ≫= λ document,
    [ EPrint (source_header (default "" (metadata document !! "source")));
      EPrint (page_content document) ].

(** The events of printing a question and its answer. *)
Definition answer_events (query answer : string) : list event :=
  [ EPrint (nl +:+ nl +:+ "> Question:"); EPrint query;
    EPrint (nl +:+ "> Answer:"); EPrint answer ].

(** The events of one answered turn of the loop. *)
Definition turn_events (hidden : bool) (query answer : string)
    (docs : list Document) : list event :=
  [EInput input_prompt; EChainCall query] ++ answer_events query answer
    ++ (if hidden then [] else source_events docs).

(** The callbacks a language-model object was built with, for the
    constructors that take them. *)
Definition llm_callbacks (llm : LLM) : option (list callback) :=
  match llm with
  | LlamaCpp _ _ callbacks _ _ _ _ _ => Some callbacks
  | GPT4All _ _ _ callbacks _ _ => Some callbacks
  | HuggingFacePipeline _ _ _ _ _ => None
  | ChatOpenAI _ _ _ callbacks _ => Some callbacks
  end.

End PrivateGPT.

(** * Inputs to run the two scripts on *)

Module IngestScenarios.
Import Py Ingest.

(** A loader for examples: it yields the given number of documents for
    any file, numbered from 0 in their content. *)
Definition sample_document (path : string) (i : nat) : Document :=
  mkDocument (path +:+ "#" +:+ pretty i) {[ "source" := path ]}.

Definition sample_loader (docs_per_file : nat) (loader : Loader)
  : result (list Document) :=
  Ok (sample_document (loader_path loader) <$> seq 0 docs_per_file).

(** A directory [docs] that holds one file, [empty.csv]. *)
Definition glob_one_csv (pattern : string) : list string :=
  if decide (pattern = "docs/**/*.csv") then ["docs/empty.csv"] else [].

(** Three files under [docs], one of them in a subdirectory. *)
Definition sample_glob (pattern : string) : list string :=
  if decide (pattern = "docs/**/*.csv") then ["docs/c.csv"]
  else if decide (pattern = "docs/**/*.pdf") then ["docs/sub/b.pdf"]
  else if decide (pattern = "docs/**/*.txt") then ["docs/a.txt"]
  else [].

(** A splitter to run the pipeline with: windows of [chunk_size]
    characters, each starting [chunk_size - chunk_overlap] characters after
    the previous one; the last window holds what is left. *)
Fixpoint window_chunks (fuel size step : nat) (text : string) : list string :=
  match fuel with
  | 0 => []
  | S fuel' =>
      if decide (String.length text ≤ size) then [text]
      else String.substring 0 size text
           :: window_chunks fuel' size step
                (String.substring step (String.length text - step) text)
  end.

Definition window_split (splitter : TextSplitter) (text : string)
  : list string :=
  if decide (text = "") then []
  else window_chunks (String.length text) (chunk_size splitter)
         (chunk_size splitter - chunk_overlap splitter) text.

Definition sample_environ : gmap string string :=
  {[ "PERSIST_DIRECTORY" := "db"; "SOURCE_DIRECTORY" := "docs" ]}.

Definition sample_embed (model_name : option string) (text : string) : nat :=
  String.length text.

Definition sample_run : World nat * result unit :=
  main (sample_loader 2) sample_glob (Some 4) [2; 0; 1] window_split nat
       sample_embed ∅ sample_environ (mkWorld [] ∅).

(** A world that already has output and an index under another
    directory, and a run of the ingestion in it. *)
Definition used_world : World nat :=
  mkWorld ["earlier output"] {[ "other" := [(7, sample_document "x" 0)] ]}.

Definition used_run : World nat * result unit :=
  main (sample_loader 2) sample_glob (Some 4) [2; 0; 1] window_split nat
       sample_embed ∅ sample_environ used_world.

End IngestScenarios.

Module PrivateGPTScenarios.
Import Py PrivateGPT.

(** A store of five passages that returns the first [k] of them, a model
    that answers every query, and an [int] for unsigned decimal digits. *)
Definition sample_passage (i : nat) : Document :=
  mkDocument ("passage " +:+ pretty i)
             {[ "source" := "docs/file" +:+ pretty i +:+ ".txt" ]}.

Definition sample_search (db : Chroma) (query : string) (k : Z)
  : result (list Document) :=
  if decide (k < 0)%Z then Raise (ExternalError "negative number of results")
  else Ok (take (Z.to_nat k) (sample_passage <$> seq 0 5)).

Definition sample_llm (llm : LLM) (docs : list Document) (query : string)
  : result string :=
  Ok ("Answer to: " +:+ query).

Definition sample_from_pretrained (cls : string) (path : option string)
    (local_files_only : bool) : result unit :=
  Ok ().

Fixpoint digits_value (acc : Z) (s : string) : option Z :=
  match s with
  | EmptyString => Some acc
  | String c rest =>
      let n := Z.of_nat (nat_of_ascii c) in
      if decide (48 ≤ n ≤ 57)%Z then digits_value (10 * acc + (n - 48)) rest
      else None
  end.

Definition sample_int (s : string) : result Z :=
  match s, digits_value 0 s with
  | String _ _, Some z => Ok z
  | _, _ => Raise (ValueError ("invalid literal for int() with base 10: '"
                               +:+ s +:+ "'"))
  end.

Definition sample_environ : gmap string string :=
  {[ "MODEL_TYPE" := "GPT4All"; "MODEL_PATH" := "models/ggml.bin";
     "MODEL_N_CTX" := "1000" ]}.

Definition sample_cfg : Config :=
  mkConfig None None (Some "GPT4All") (Some "models/ggml.bin") (Some "1000") 4 0.

Definition sample_llm_object : LLM :=
  GPT4All (Some "models/ggml.bin") (Some "1000") "gptj"
    [StreamingStdOutCallbackHandler] false 10.

Definition sample_chain (return_sources : bool) : RetrievalQA :=
  mkRetrievalQA sample_llm_object "stuff"
    (as_retriever (mkChroma None None ∅) 4) return_sources.

Definition openai_environ : gmap string string :=
  {[ "MODEL_TYPE" := "OpenAI"; "MODEL_PATH" := "gpt-3.5-turbo";
     "OPENAI_API_KEY" := "sk-example" ]}.

Definition openai_cfg : Config :=
  mkConfig None None (Some "OpenAI") (Some "gpt-3.5-turbo") None 4 0.

Definition falcon_cfg : Config :=
  mkConfig None None (Some "Falcon") (Some "models/falcon.bin") None 4 0.

(** Model files that cannot be loaded, a store that cannot be reached, and
    a store whose second passage has no ["source"] entry. *)
Definition missing_from_pretrained (cls : string) (path : option string)
    (local_files_only : bool) : result unit :=
  Raise (ExternalError ("no local files for " +:+ cls)).

Definition unreachable_search (db : Chroma) (query : string) (k : Z)
  : result (list Document) :=
  Raise (ExternalError "index unavailable").

Definition unsourced_search (db : Chroma) (query : string) (k : Z)
  : result (list Document) :=
  Ok [sample_passage 0; mkDocument "stray text" ∅; sample_passage 2].

Definition sample_docs_of (query : string) : list Document :=
  sample_passage <$> seq 0 4.

Definition sample_answer_of (query : string) : string :=
  "Answer to: " +:+ query.

Definition bad_layers_environ : gmap string string :=
  {[ "MODEL_TYPE" := "GPT4All"; "N_GPU_LAYERS" := "many" ]}.

Definition huggingface_cfg (n_ctx : option string) : Config :=
  mkConfig None None (Some "HuggingFace") (Some "models/flan") n_ctx 4 0.

End PrivateGPTScenarios.

(** * Properties of ingest.py *)

Module IngestSpec.
Import Py Ingest IngestScenarios.

(** ** Strings *)

Lemma rsplit1_last_no_sep sep s :
  contains_char sep s = false → rsplit1_last sep s = s.
Proof.
  destruct s as [|c rest]; simpl; [done|].
  case_decide; [done|]. intros ->. done.
Qed.

Lemma contains_char_app sep a b :
  contains_char sep (a +:+ b) = contains_char sep a || contains_char sep b.
Proof.
  induction a as [|c a IH]; simpl; [done|]. case_decide; [done|]. apply IH.
Qed.

(** What follows the last separator is what [rsplit] keeps. *)
Lemma rsplit1_last_app sep a b :
  contains_char sep b = false →
  rsplit1_last sep (a +:+ String sep b) = b.
Proof.
  intros Hb. induction a as [|c a IH]; simpl.
  - rewrite Hb. by rewrite decide_True.
  - rewrite contains_char_app. simpl. rewrite decide_True by done.
    rewrite orb_true_r. apply IH.
Qed.

(** ** The loader mapping *)

Lemma dict_get_Some_elem_of {V} (d : list (string * V)) key v :
  dict_get d key = Some v → (key, v) ∈ d.
Proof.
  induction d as [|[k w] d IH]; simpl; [done|].
  case_decide as Hk.
  - intros [= ->]. subst. apply list_elem_of_here.
  - intros H. apply list_elem_of_further, IH, H.
Qed.

Lemma dict_get_None_iff {V} (d : list (string * V)) key :
  dict_get d key = None ↔ key ∉ dict_keys d.
Proof.
  unfold dict_keys. induction d as [|[k w] d IH]; simpl.
  - split; [intros _; apply not_elem_of_nil | done].
  - rewrite not_elem_of_cons. case_decide as Hk; subst.
    + split; [done | intros [? _]; done].
    + rewrite IH. split; [by intros ?; split | by intros [_ ?]].
Qed.

Lemma dict_get_is_Some_iff {V} (d : list (string * V)) key :
  is_Some (dict_get d key) ↔ key ∈ dict_keys d.
Proof.
  destruct (dict_get d key) eqn:E.
  - split; [intros _ | by eauto].
    destruct (decide (key ∈ dict_keys d)) as [|Hn]; [done|].
    apply dict_get_None_iff in Hn. congruence.
  - split; [by intros [? ?] |]. intros Hin.
    apply dict_get_None_iff in E. done.
Qed.

Lemma LOADER_MAPPING_keys :
  dict_keys LOADER_MAPPING =
  [".csv"; ".doc"; ".docx"; ".enex"; ".eml"; ".epub"; ".html"; ".md";
   ".odt"; ".pdf"; ".ppt"; ".pptx"; ".txt"].
Proof. reflexivity. Qed.

Lemma LOADER_MAPPING_NoDup : NoDup (dict_keys LOADER_MAPPING).
Proof. compute_done. Qed.

(** ** [load_single_document] *)

Example path_ext_nested : path_ext "docs/v1.2/notes.txt" = ".txt".
Proof. reflexivity. Qed.

Example path_ext_no_dot : path_ext "README" = ".README".
Proof. reflexivity. Qed.

Example path_ext_upper : path_ext "scan.PDF" = ".PDF".
Proof. reflexivity. Qed.

(** The extension is the dot and what follows the last dot of the path. *)
Lemma path_ext_app stem suffix :
  contains_char "." suffix = false →
  path_ext (stem +:+ "." +:+ suffix) = "." +:+ suffix.
Proof.
  intros H. unfold path_ext. f_equal.
  by apply (rsplit1_last_app "." stem suffix).
Qed.

Lemma unsupported_message_mentions ext :
  ∃ pre post, unsupported_message ext = pre +:+ ext +:+ post.
Proof. exists "Unsupported file extension '", "'". done. Qed.

(** The mapping has thirteen keys, not fourteen. *)
Lemma LOADER_MAPPING_not_14_keys : length (dict_keys LOADER_MAPPING) ≠ 14.
Proof. rewrite LOADER_MAPPING_keys. simpl. lia. Qed.

(** C1, amended: [LOADER_MAPPING] has 13 keys.  For every file path, with
    its extension taken as the dot followed by what comes after the last
    dot of the path: when the extension is a key, [load_single_document]
    builds the loader mapped to it, on that path and with the mapped
    arguments, and its outcome is the first document of that loader's
    [load()]; when the extension is not a key, it raises a [ValueError]
    whose message contains the extension. *)
Theorem load_single_document_dispatch
    (loader_load : Loader → result (list Document)) (file_path : string) :
  length (dict_keys LOADER_MAPPING) = 13 ∧
  (path_ext file_path ∈ dict_keys LOADER_MAPPING →
   ∃ cls args,
     (path_ext file_path, (cls, args)) ∈ LOADER_MAPPING ∧
     load_single_document loader_load file_path =
       bind (loader_load (mkLoader cls file_path args)) index0) ∧
  (path_ext file_path ∉ dict_keys LOADER_MAPPING →
   ∃ msg,
     load_single_document loader_load file_path = Raise (ValueError msg) ∧
     ∃ pre post, msg = pre +:+ path_ext file_path +:+ post).
Proof.
  split; [reflexivity|]. split.
  - intros Hin. apply dict_get_is_Some_iff in Hin as [[cls args] Hget].
    exists cls, args. split; [by apply dict_get_Some_elem_of|].
    unfold load_single_document. by rewrite Hget.
  - intros Hnot. apply dict_get_None_iff in Hnot.
    exists (unsupported_message (path_ext file_path)). split.
    + unfold load_single_document. by rewrite Hnot.
    + apply unsupported_message_mentions.
Qed.

Lemma load_single_document_dispatch_witness :
  (∃ cls args,
     (".pdf", (cls, args)) ∈ LOADER_MAPPING ∧
     load_single_document (sample_loader 1) "papers/report.pdf" =
       bind (sample_loader 1 (mkLoader cls "papers/report.pdf" args)) index0) ∧
  (∃ msg,
     load_single_document (sample_loader 1) "archive.zip" = Raise (ValueError msg) ∧
     ∃ pre post, msg = pre +:+ ".zip" +:+ post).
Proof.
  split.
  - apply (proj1 (proj2 (load_single_document_dispatch (sample_loader 1)
                           "papers/report.pdf"))).
    vm_compute. repeat (first [apply list_elem_of_here | apply list_elem_of_further]).
  - apply (proj2 (proj2 (load_single_document_dispatch (sample_loader 1)
                           "archive.zip"))).
    apply dict_get_None_iff. reflexivity.
Defined.

(** C9: for a file whose extension is a key of the mapping, as soon as the
    mapped loader's [load()] yields at least one document the result is
    its first document, whatever follows it in the list. *)
Theorem load_single_document_first_only
    (loader_load : Loader → result (list Document)) (file_path : string)
    (cls : loader_class) (args : loader_args)
    (first : Document) (others : list Document) :
  dict_get LOADER_MAPPING (path_ext file_path) = Some (cls, args) →
  loader_load (mkLoader cls file_path args) = Ok (first :: others) →
  load_single_document loader_load file_path = Ok first.
Proof.
  intros Hget Hload. unfold load_single_document. rewrite Hget. simpl.
  by rewrite Hload.
Qed.

Lemma load_single_document_first_only_witness :
  load_single_document (sample_loader 3) "data/table.csv" =
  Ok (sample_document "data/table.csv" 0).
Proof.
  apply (load_single_document_first_only (sample_loader 3) "data/table.csv"
           CSVLoader [] _
           [sample_document "data/table.csv" 1;
            sample_document "data/table.csv" 2]);
    reflexivity.
Defined.

(** ** [load_documents] *)

Lemma all_files_bind glob_glob source_dir :
  all_files glob_glob source_dir =
  dict_keys LOADER_MAPPING ≫= λ ext, glob_glob (glob_pattern source_dir ext).
Proof.
  unfold all_files.
  enough (∀ (keys : list string) acc,
    foldl (λ acc ext, acc ++ glob_glob (glob_pattern source_dir ext)) acc keys
    = acc ++ (keys ≫= λ ext, glob_glob (glob_pattern source_dir ext)))
    as H by apply (H _ []).
  induction keys as [|k keys IH]; intros acc; simpl.
  - by rewrite app_nil_r.
  - rewrite IH. by rewrite <- app_assoc.
Qed.

Lemma elem_of_all_files glob_glob source_dir f :
  f ∈ all_files glob_glob source_dir ↔
  ∃ ext, ext ∈ dict_keys LOADER_MAPPING ∧
         f ∈ glob_glob (glob_pattern source_dir ext).
Proof.
  rewrite all_files_bind, list_elem_of_bind.
  split; intros (ext & H1 & H2); exists ext; by split.
Qed.

(** Reading a list through all of its indices gives the list back. *)
Lemma omap_lookup_seq {A} (pre xs : list A) :
  omap (λ i, (pre ++ xs) !! i) (seq (length pre) (length xs)) = xs.
Proof.
  revert pre. induction xs as [|x xs IH]; intros pre; simpl; [done|].
  rewrite list_lookup_middle by done. f_equal.
  specialize (IH (pre ++ [x])).
  rewrite <- app_assoc, length_app in IH. simpl in IH.
  by rewrite Nat.add_1_r in IH.
Qed.

Lemma omap_lookup_permutation {A} (xs : list A) completion :
  completion ≡ₚ seq 0 (length xs) →
  omap (λ i, xs !! i) completion ≡ₚ xs.
Proof.
  intros ->. by rewrite <- (omap_lookup_seq [] xs) at 2.
Qed.

(** When every task succeeds, the loop returns the results in completion
    order. *)
Lemma collect_unordered_ok {A B} (f : A → result B) (g : A → B)
    (xs : list A) completion acc :
  (∀ x, x ∈ xs → f x = Ok (g x)) →
  collect_unordered f xs completion acc =
  Ok (acc ++ (g <$> omap (λ i, xs !! i) completion)).
Proof.
  intros Hf. revert acc.
  induction completion as [|i rest IH]; intros acc; simpl.
  - by rewrite app_nil_r.
  - destruct (xs !! i) as [x|] eqn:Hi; simpl; [|apply IH].
    rewrite Hf by (by eapply list_elem_of_lookup_2).
    rewrite IH. by rewrite <- app_assoc.
Qed.

(** The loop only asks for the outcome of tasks on elements of the list. *)
Lemma collect_unordered_ext {A B} (f f' : A → result B)
    (xs : list A) completion acc :
  (∀ x, x ∈ xs → f' x = f x) →
  collect_unordered f' xs completion acc = collect_unordered f xs completion acc.
Proof.
  intros Hf. revert acc.
  induction completion as [|i rest IH]; intros acc; simpl; [done|].
  destruct (xs !! i) as [x|] eqn:Hi; [|apply IH].
  rewrite Hf by (by eapply list_elem_of_lookup_2).
  destruct (f x); [apply IH | done].
Qed.

Lemma load_single_document_ext loader_load loader_load' file_path :
  (∀ l, loader_path l = file_path → loader_load' l = loader_load l) →
  load_single_document loader_load' file_path =
  load_single_document loader_load file_path.
Proof.
  intros H. unfold load_single_document.
  destruct (dict_get _ _) as [[cls args]|]; [|done]. by rewrite H.
Qed.

Lemma make_pool_ok n : 2 ≤ n → make_pool (Some n) = Ok (Z.of_nat n - 1)%Z.
Proof. intros Hn. unfold make_pool. rewrite decide_False by lia. done. Qed.

(** On a machine with one CPU the pool is asked for zero processes. *)
Example load_documents_single_cpu loader_load glob_glob completion source_dir :
  load_documents loader_load glob_glob (Some 1) completion source_dir =
  Raise (ValueError "Number of processes must be at least 1").
Proof. reflexivity. Qed.



Example sample_glob_all_files :
  all_files sample_glob "docs" = ["docs/c.csv"; "docs/sub/b.pdf"; "docs/a.txt"].
Proof. reflexivity. Qed.

Example sample_load_documents :
  load_documents (sample_loader 2) sample_glob (Some 4) [2; 0; 1] "docs" =
  Ok [sample_document "docs/a.txt" 0; sample_document "docs/c.csv" 0;
      sample_document "docs/sub/b.pdf" 0].
Proof. reflexivity. Qed.


(** ** [main] *)

Section MainRun.

Variable loader_load : Loader → result (list Document).
Variable glob_glob : string → list string.
Variable cpu_count : option nat.
Variable completion : list nat.
Variable split_text : TextSplitter → string → list string.
Variable Vector : Type.
Variable embed_documents : option string → string → Vector.
Variable CHROMA_SETTINGS : Settings.
Variable environ : gmap string string.

Local Abbreviation run_main :=
  (main loader_load glob_glob cpu_count completion split_text Vector
        embed_documents CHROMA_SETTINGS environ).

Local Abbreviation source_directory :=
  (environ_get_default environ "SOURCE_DIRECTORY" "source_documents").

Local Abbreviation loaded :=
  (load_documents loader_load glob_glob cpu_count completion source_directory).
Local Abbreviation embedded := (Ingest.embedded Vector embed_documents environ).
Local Abbreviation progress_lines := (Ingest.progress_lines environ).

(** [main] completes exactly when the documents load and a persist
    directory is set, and this is then the world it leaves. *)
Lemma main_completes_inv (w w' : World Vector) :
  run_main w = (w', Ok ()) →
  ∃ documents dir,
    loaded = Ok documents ∧
    environ !! "PERSIST_DIRECTORY" = Some dir ∧
    let texts :=
      split_documents split_text (RecursiveCharacterTextSplitter 1000 100)
        documents in
    w' = mkWorld (stdout w ++ progress_lines documents texts)
           (<[dir := default [] (disk w !! dir) ++ (embedded <$> texts)]>
              (disk w)).
Proof.
  unfold main, and_then, print, lift, Chroma_from_documents, Chroma_persist,
    environ_get. simpl.
  destruct loaded as [documents|e]; simpl; [|done].
  destruct (environ !! "PERSIST_DIRECTORY") as [dir|] eqn:Hdir; simpl; [|done].
  intros [= <-]. exists documents, dir. repeat split.
  unfold progress_lines. by rewrite <- !app_assoc.
Qed.

Lemma main_completes (w : World Vector) documents dir :
  loaded = Ok documents →
  environ !! "PERSIST_DIRECTORY" = Some dir →
  ∃ w', run_main w = (w', Ok ()).
Proof.
  intros Hload Hdir.
  unfold main, and_then, print, lift, Chroma_from_documents, Chroma_persist,
    environ_get. simpl.
  rewrite Hload. simpl. rewrite Hdir. simpl. eauto.
Qed.



End MainRun.

(** ** The window splitter *)

Example window_split_alphabet :
  window_split (RecursiveCharacterTextSplitter 10 3) "abcdefghijklmnopqrstuvwxyz"
  = ["abcdefghij"; "hijklmnopq"; "opqrstuvwx"; "vwxyz"].
Proof. reflexivity. Qed.

Lemma substring_length_le n m s : String.length (String.substring n m s) ≤ m.
Proof.
  revert n m. induction s as [|c s IH]; intros [|n] [|m]; simpl; try lia.
  - specialize (IH 0 m). lia.
  - apply (IH n 0).
  - apply (IH n (S m)).
Qed.

Lemma window_chunks_within fuel size step text chunk :
  chunk ∈ window_chunks fuel size step text → String.length chunk ≤ size.
Proof.
  revert text. induction fuel as [|fuel IH]; intros text; simpl.
  - intros H. by apply elem_of_nil in H.
  - case_decide as Hlen.
    + intros ->%list_elem_of_singleton. done.
    + intros [->|H]%elem_of_cons; [apply substring_length_le | by eapply IH].
Qed.

Lemma window_split_within splitter text chunk :
  chunk ∈ window_split splitter text →
  String.length chunk ≤ chunk_size splitter.
Proof.
  unfold window_split. case_decide.
  - intros Hin. by apply elem_of_nil in Hin.
  - apply window_chunks_within.
Qed.

(** With a splitter whose chunks are pieces of the text, a document of
    fewer than 1000 characters has no chunk of 1000 characters. *)
Lemma short_document_short_chunks
    (split_text : TextSplitter → string → list string)
    (splitter : TextSplitter) (doc chunk : Document) :
  (∀ sp text c, c ∈ split_text sp text → String.length c ≤ String.length text) →
  String.length (page_content doc) < 1000 →
  chunk ∈ split_documents split_text splitter [doc] →
  String.length (page_content chunk) ≠ 1000.
Proof.
  intros Hpiece Hshort Hin.
  apply list_elem_of_bind in Hin as (d & Hin & ->%list_elem_of_singleton).
  apply list_elem_of_fmap in Hin as (c & -> & Hc). simpl.
  apply Hpiece in Hc. lia.
Qed.


(** ** A complete run of the ingestion *)

Example sample_run_stdout :
  stdout sample_run.1 =
  [ "Loading documents from docs";
    "Loaded 3 documents from docs";
    "Split into 3 chunks of text (max. 1000 characters each)";
    "Creating context embeddings and storing vectorstore" ].
Proof. reflexivity. Qed.

Example sample_run_disk :
  disk sample_run.1 !! "db" =
  Some [ (12, sample_document "docs/a.txt" 0);
         (12, sample_document "docs/c.csv" 0);
         (16, sample_document "docs/sub/b.pdf" 0) ].
Proof. reflexivity. Qed.



End IngestSpec.

(** * Properties of privateGPT.py *)

Module PrivateGPTSpec.
Import Py PrivateGPT PrivateGPTScenarios.

Lemma source_events_cons d docs :
  source_events (d :: docs) =
  [ EPrint (source_header (default "" (metadata d !! "source")));
    EPrint (page_content d) ] ++ source_events docs.
Proof. reflexivity. Qed.

Lemma chain_calls_app tr1 tr2 :
  chain_calls (tr1 ++ tr2) = chain_calls tr1 ++ chain_calls tr2.
Proof. apply omap_app. Qed.

Lemma chain_calls_answer_events query answer :
  chain_calls (answer_events query answer) = [].
Proof. reflexivity. Qed.

Lemma chain_calls_source_events docs : chain_calls (source_events docs) = [].
Proof. induction docs as [|d docs IH]; [done|]. apply IH. Qed.

Section Script.

Variable CHROMA_SETTINGS : Settings.
Variable py_int : string → result Z.
Variable from_pretrained : string → option string → bool → result unit.
Variable similarity_search : Chroma → string → Z → result (list Document).
Variable llm_generate : LLM → list Document → string → result string.

Local Abbreviation run_main :=
  (main CHROMA_SETTINGS py_int from_pretrained similarity_search llm_generate).
Local Abbreviation run_select_llm := (select_llm py_int from_pretrained).
Local Abbreviation run_loop := (interactive_loop similarity_search llm_generate).
Local Abbreviation run_qa := (qa_call similarity_search llm_generate).

(** ** Printing the sources *)

(** Printing the sources adds print events only; when every document has a
    ["source"] entry it prints them all and goes on. *)
Lemma print_sources_events docs tr :
  ∃ printed r,
    print_sources docs tr = (tr ++ printed, r) ∧ chain_calls printed = [].
Proof.
  revert tr. induction docs as [|d docs IH]; intros tr; simpl.
  - exists [], (Ok ()). by rewrite app_nil_r.
  - unfold and_then, subscript, print, emit, ret, raise.
    destruct (metadata d !! "source") as [src|]; simpl.
    + destruct (IH ((tr ++ [EPrint (source_header src)])
                      ++ [EPrint (page_content d)])) as (p & r & Hp & Hc).
      exists ([EPrint (source_header src); EPrint (page_content d)] ++ p), r.
      rewrite Hp. split; [by rewrite <- !app_assoc | by rewrite chain_calls_app, Hc].
    + exists [], (Raise (KeyError "source")). by rewrite app_nil_r.
Qed.

Lemma print_sources_ok docs tr :
  (∀ d, d ∈ docs → is_Some (metadata d !! "source")) →
  print_sources docs tr = (tr ++ source_events docs, Ok ()).
Proof.
  revert tr. induction docs as [|d docs IH]; intros tr Hsrc.
  - simpl. by rewrite app_nil_r.
  - rewrite source_events_cons. cbn [print_sources].
    unfold and_then, subscript, print, emit, ret.
    destruct (Hsrc d (list_elem_of_here _ _)) as [src Hd].
    rewrite Hd. simpl. rewrite IH.
    + by rewrite <- !app_assoc.
    + intros d' Hd'. apply Hsrc. by apply list_elem_of_further.
Qed.

(** ** One chain call *)

Lemma qa_call_eq qa query tr :
  run_qa qa query tr =
  (tr ++ [EChainCall query],
   bind (similarity_search (vectorstore (chain_retriever qa)) query
           (search_k (chain_retriever qa))) (λ docs,
   bind (llm_generate (chain_llm qa) docs query) (λ answer,
     Ok (mkAnswer answer
           (if return_source_documents qa then Some docs else None))))).
Proof.
  unfold qa_call, and_then, emit, lift, ret. simpl.
  destruct (similarity_search _ _ _) as [docs|e]; simpl; [|done].
  by destruct (llm_generate _ _ _).
Qed.

(** ** One turn of the loop *)

Lemma loop_exit qa args rest tr :
  run_loop qa args ("exit" :: rest) tr = (tr ++ [EInput input_prompt], Ok ()).
Proof. reflexivity. Qed.

(** A turn on an answered query: the prompt, the chain call, the question
    and the answer, then the sources of the documents picked for
    printing, then the next turn. *)
Lemma loop_answered qa args query rest tr docs answer :
  query ≠ "exit" →
  similarity_search (vectorstore (chain_retriever qa)) query
    (search_k (chain_retriever qa)) = Ok docs →
  llm_generate (chain_llm qa) docs query = Ok answer →
  return_source_documents qa = negb (hide_source args) →
  run_loop qa args (query :: rest) tr =
  and_then (print_sources (if hide_source args then [] else docs))
    (λ _, run_loop qa args rest)
    (tr ++ [EInput input_prompt; EChainCall query]
        ++ answer_events query answer).
Proof.
  intros Hq Hs Hl Hr. cbn [interactive_loop].
  unfold and_then at 1. unfold emit at 1. rewrite decide_False by done.
  unfold and_then at 1. rewrite qa_call_eq, Hs. simpl. rewrite Hl. simpl.
  rewrite Hr. unfold and_then, print, emit, subscript, ret.
  destruct (hide_source args); simpl; by rewrite <- !app_assoc.
Qed.

(** Any turn on a query other than ["exit"]: the chain is called with the
    query right after the prompt; what the turn adds after that is printed
    lines only. *)
Lemma loop_step qa args query rest tr :
  query ≠ "exit" →
  ∃ body (r : result ()),
    chain_calls body = [] ∧
    run_loop qa args (query :: rest) tr =
    match r with
    | Ok _ =>
        run_loop qa args rest
          (tr ++ [EInput input_prompt; EChainCall query] ++ body)
    | Raise e =>
        (tr ++ [EInput input_prompt; EChainCall query] ++ body, Raise e)
    end.
Proof.
  intros Hq. cbn [interactive_loop].
  unfold and_then at 1. unfold emit at 1. rewrite decide_False by done.
  unfold and_then at 1. rewrite qa_call_eq.
  destruct (similarity_search _ _ _) as [docs|e]; simpl;
    [|exists [], (Raise e); by rewrite <- !app_assoc].
  destruct (llm_generate _ _ _) as [answer|e]; simpl;
    [|exists [], (Raise e); by rewrite <- !app_assoc].
  set (picked := if hide_source args then ret []
                 else subscript "source_documents"
                        (if return_source_documents qa then Some docs else None)).
  assert ((∃ ds, ∀ tr0, picked tr0 = (tr0, Ok ds)) ∨
          (∃ e, ∀ tr0, picked tr0 = (tr0, Raise e))) as [[ds Hp]|[e Hp]].
  { subst picked. destruct (hide_source args); [left; by exists []|].
    destruct (return_source_documents qa); [left; by exists docs|].
    right. by exists (KeyError "source_documents"). }
  - unfold and_then at 1. rewrite Hp.
    unfold and_then, print, emit. simpl.
    destruct (print_sources_events ds
                ((((((tr ++ [EInput input_prompt]) ++ [EChainCall query])
                     ++ [EPrint (nl +:+ nl +:+ "> Question:")])
                    ++ [EPrint query]) ++ [EPrint (nl +:+ "> Answer:")])
                  ++ [EPrint answer])) as (printed & r & Hps & Hcalls).
    rewrite Hps. exists (answer_events query answer ++ printed), r.
    split; [by rewrite chain_calls_app, Hcalls|].
    destruct r; simpl; by rewrite <- !app_assoc.
  - unfold and_then at 1. rewrite Hp.
    exists [], (Raise e). by rewrite <- !app_assoc.
Qed.

(** ** The whole loop *)

Lemma loop_trace qa args stdin tr :
  ∃ new r,
    run_loop qa args stdin tr = (tr ++ new, r) ∧
    chain_calls new `prefix_of` queries_before_exit stdin ∧
    (r = Ok () → chain_calls new = queries_before_exit stdin ∧ "exit" ∈ stdin).
Proof.
  revert tr. induction stdin as [|query rest IH]; intros tr.
  - exists [EInput input_prompt], (Raise EOFError). by repeat split.
  - destruct (decide (query = "exit")) as [->|Hq].
    + exists [EInput input_prompt], (Ok ()). rewrite loop_exit.
      repeat split; [done | apply list_elem_of_here].
    + destruct (loop_step qa args query rest tr Hq) as (body & r & Hb & Hrun).
      rewrite Hrun. cbn [queries_before_exit]. rewrite decide_False by done.
      destruct r as [[]|e].
      * destruct (IH (tr ++ [EInput input_prompt; EChainCall query] ++ body))
          as (new & r & Hnew & Hpre & Hok).
        exists (([EInput input_prompt; EChainCall query] ++ body) ++ new), r.
        rewrite Hnew, !chain_calls_app, Hb. simpl.
        split; [by rewrite <- !app_assoc|]. split.
        -- by apply prefix_cons.
        -- intros Hr. destruct (Hok Hr) as [-> Hin].
           split; [done | by apply list_elem_of_further].
      * exists ([EInput input_prompt; EChainCall query] ++ body), (Raise e).
        rewrite chain_calls_app, Hb. simpl.
        split; [done|]. split; [|done].
        apply prefix_cons, prefix_nil.
Qed.

(** C10: at the prompt, the line ["exit"] ends the loop, and [main] with
    it, with nothing handed to the chain and nothing printed; any other
    line is handed to the chain as the query, right after the prompt.  Over
    a whole run the queries handed to the chain are, in order, input lines
    read before the first ["exit"]. *)
Theorem interactive_loop_exit_or_forward
    (qa : RetrievalQA) (args : Args) (query : string) (rest : list string)
    (tr : list event) :
  (query = "exit" →
   run_loop qa args (query :: rest) tr = (tr ++ [EInput input_prompt], Ok ())) ∧
  (query ≠ "exit" →
   ∃ after r,
     run_loop qa args (query :: rest) tr =
     (tr ++ [EInput input_prompt; EChainCall query] ++ after, r)) ∧
  (∃ new r,
     run_loop qa args (query :: rest) tr = (tr ++ new, r) ∧
     chain_calls new `prefix_of` queries_before_exit (query :: rest)).
Proof.
  split; [intros ->; apply loop_exit|]. split.
  - intros Hq.
    destruct (loop_step qa args query rest tr Hq) as (body & r & _ & Hrun).
    rewrite Hrun. destruct r as [[]|e].
    + destruct (loop_trace qa args rest
                  (tr ++ [EInput input_prompt; EChainCall query] ++ body))
        as (new & r & Hnew & _).
      exists (body ++ new), r. rewrite Hnew. by rewrite <- !app_assoc.
    + by exists body, (Raise e).
  - destruct (loop_trace qa args (query :: rest) tr) as (new & r & Hnew & Hpre & _).
    by exists new, r.
Qed.

(** ** From [main] to the loop *)

Lemma main_reaches_loop cfg environ given stdin tr tr0 llm :
  run_select_llm cfg environ
    (if mute_stream (parse_arguments given) then []
     else [StreamingStdOutCallbackHandler]) tr
    = (tr0, Ok (Some (PyLLM llm))) →
  run_main cfg environ given stdin tr =
  run_loop
    (mkRetrievalQA llm "stuff"
       (as_retriever
          (mkChroma (persist_directory cfg) (embeddings_model_name cfg)
             CHROMA_SETTINGS)
          (target_source_chunks cfg))
       (negb (hide_source (parse_arguments given))))
    (parse_arguments given) stdin tr0.
Proof.
  intros Hsel. unfold main. unfold and_then at 1. by rewrite Hsel.
Qed.

Lemma select_llm_default cfg environ callbacks tr :
  model_type cfg ∉
    [Some "LlamaCpp"; Some "GPT4All"; Some "HuggingFace"; Some "OpenAI"] →
  run_select_llm cfg environ callbacks tr =
  (tr ++ [EPrint (not_supported_message (model_type cfg))], Ok None).
Proof.
  intros Hnot. rewrite !not_elem_of_cons in Hnot.
  destruct Hnot as (H1 & H2 & H3 & H4 & _).
  unfold select_llm. by rewrite !decide_False.
Qed.



Lemma module_init_target_source_chunks environ cfg :
  module_init py_int environ = Ok cfg →
  int_environ py_int environ "TARGET_SOURCE_CHUNKS" 4
    = Ok (target_source_chunks cfg).
Proof.
  unfold module_init.
  destruct (int_environ py_int environ "TARGET_SOURCE_CHUNKS" 4) as [k|e];
    simpl; [|done].
  destruct (int_environ py_int environ "N_GPU_LAYERS" 0); simpl; [|done].
  by intros [= <-].
Qed.



End Script.

(** ** A complete session *)

Example sample_module_init : module_init sample_int sample_environ = Ok sample_cfg.
Proof. reflexivity. Qed.

Example sample_int_2 :
  target_source_chunks
    <$> (match module_init sample_int
                 (<[ "TARGET_SOURCE_CHUNKS" := "2" ]> sample_environ) with
         | Ok cfg => Some cfg | Raise _ => None end)
  = Some 2%Z.
Proof. reflexivity. Qed.

(** One question, then ["exit"], with the sources shown. *)
Example sample_session :
  script ∅ sample_int sample_from_pretrained sample_search sample_llm
    sample_environ [] ["What is in the files?"; "exit"; "never read"] =
  ([ EInput input_prompt; EChainCall "What is in the files?";
     EPrint (nl +:+ nl +:+ "> Question:"); EPrint "What is in the files?";
     EPrint (nl +:+ "> Answer:"); EPrint "Answer to: What is in the files?";
     EPrint (nl +:+ "> docs/file0.txt:"); EPrint "passage 0";
     EPrint (nl +:+ "> docs/file1.txt:"); EPrint "passage 1";
     EPrint (nl +:+ "> docs/file2.txt:"); EPrint "passage 2";
     EPrint (nl +:+ "> docs/file3.txt:"); EPrint "passage 3";
     EInput input_prompt ],
   Ok ()).
Proof. reflexivity. Qed.

(** The same with [--hide-source]. *)
Example sample_session_hidden :
  script ∅ sample_int sample_from_pretrained sample_search sample_llm
    sample_environ [opt_hide_source] ["What is in the files?"; "exit"] =
  ([ EInput input_prompt; EChainCall "What is in the files?";
     EPrint (nl +:+ nl +:+ "> Question:"); EPrint "What is in the files?";
     EPrint (nl +:+ "> Answer:"); EPrint "Answer to: What is in the files?";
     EInput input_prompt ],
   Ok ()).
Proof. reflexivity. Qed.

(** Standard input ends without ["exit"]: [input] raises. *)
Example sample_session_eof :
  (script ∅ sample_int sample_from_pretrained sample_search sample_llm
     sample_environ [opt_hide_source] ["one"]).2 = Raise EOFError.
Proof. reflexivity. Qed.

(** [MODEL_TYPE] not set. *)
Example sample_session_no_model_type :
  script ∅ sample_int sample_from_pretrained sample_search sample_llm
    ∅ [] ["exit"] =
  ([EPrint "Model None not supported!"], Raise (UnboundLocalError "llm")).
Proof. reflexivity. Qed.

Lemma sample_search_at_most db query k docs :
  sample_search db query k = Ok docs → (Z.of_nat (length docs) ≤ k)%Z.
Proof.
  unfold sample_search. case_decide; [done|]. intros [= <-].
  rewrite length_take. lia.
Qed.

Lemma interactive_loop_exit_or_forward_witness :
  interactive_loop sample_search sample_llm (sample_chain true)
    (mkArgs false false) ["exit"; "never read"] []
    = ([EInput input_prompt], Ok ()) ∧
  ∃ after r,
    interactive_loop sample_search sample_llm (sample_chain true)
      (mkArgs false false) ["Who wrote it?"; "exit"] []
    = ([EInput input_prompt; EChainCall "Who wrote it?"] ++ after, r).
Proof.
  split.
  - apply (proj1 (interactive_loop_exit_or_forward sample_search sample_llm
                    (sample_chain true) (mkArgs false false) "exit"
                    ["never read"] [])).
    reflexivity.
  - apply (proj1 (proj2 (interactive_loop_exit_or_forward sample_search
                           sample_llm (sample_chain true) (mkArgs false false)
                           "Who wrote it?" ["exit"] []))).
    discriminate.
Defined.






End PrivateGPTSpec.

(** * Further properties of ingest.py *)

Module IngestMore.
Import Py Ingest IngestScenarios IngestSpec.

(** ** Extensions and the mapping *)

(** Every key is a dot followed by letters without a dot. *)
Lemma LOADER_MAPPING_key_shape ext :
  ext ∈ dict_keys LOADER_MAPPING →
  ∃ suffix, ext = String "." suffix ∧ contains_char "." suffix = false.
Proof.
  rewrite LOADER_MAPPING_keys, !elem_of_cons.
  intros H. repeat (destruct H as [->|H]; [eexists; split; reflexivity|]).
  by apply elem_of_nil in H.
Qed.

Lemma path_ext_key stem ext :
  ext ∈ dict_keys LOADER_MAPPING → path_ext (stem +:+ ext) = ext.
Proof.
  intros (suffix & -> & Hs)%LOADER_MAPPING_key_shape.
  by apply (path_ext_app stem suffix).
Qed.

Lemma dict_get_elem_of {V} (d : list (string * V)) key v :
  NoDup (dict_keys d) → (key, v) ∈ d → dict_get d key = Some v.
Proof.
  unfold dict_keys. induction d as [|[k w] d IH]; simpl.
  - intros _ H. by apply elem_of_nil in H.
  - intros [Hk Hd]%NoDup_cons [[= -> ->]|Hin]%elem_of_cons.
    + by rewrite decide_True.
    + rewrite decide_False; [by apply IH|].
      intros ->. apply Hk. apply list_elem_of_fmap. by exists (key, v).
Qed.

(** X1: a path that ends with a key of the mapping, whatever dots and
    slashes come before, is handed to the loader mapped to that key; the
    unsupported-extension error cannot arise for it. *)
Theorem load_single_document_suffix
    (loader_load : Loader → result (list Document))
    (stem ext : string) (cls : loader_class) (args : loader_args) :
  (ext, (cls, args)) ∈ LOADER_MAPPING →
  load_single_document loader_load (stem +:+ ext) =
  bind (loader_load (mkLoader cls (stem +:+ ext) args)) index0.
Proof.
  intros Hin. unfold load_single_document.
  assert (ext ∈ dict_keys LOADER_MAPPING) as Hkey
    by (apply list_elem_of_fmap; by exists (ext, (cls, args))).
  rewrite (path_ext_key stem ext Hkey).
  by rewrite (dict_get_elem_of _ _ _ LOADER_MAPPING_NoDup Hin).
Qed.

Lemma load_single_document_suffix_witness :
  load_single_document (sample_loader 1) ("backup.2023/notes.v2" +:+ ".docx") =
  bind (sample_loader 1
          (mkLoader UnstructuredWordDocumentLoader
             ("backup.2023/notes.v2" +:+ ".docx") [])) index0.
Proof.
  apply (load_single_document_suffix (sample_loader 1) "backup.2023/notes.v2"
           ".docx" UnstructuredWordDocumentLoader []).
  do 2 apply list_elem_of_further. apply list_elem_of_here.
Defined.

(** X2: for a path without any dot the extension is the dot followed by
    the whole path; unless that happens to be a key, the call raises the
    [ValueError] that quotes the whole path as the extension. *)
Theorem load_single_document_no_dot
    (loader_load : Loader → result (list Document)) (file_path : string) :
  contains_char "." file_path = false →
  "." +:+ file_path ∉ dict_keys LOADER_MAPPING →
  load_single_document loader_load file_path =
  Raise (ValueError ("Unsupported file extension '." +:+ file_path +:+ "'")).
Proof.
  intros Hdot Hnot. unfold load_single_document, path_ext.
  rewrite (rsplit1_last_no_sep "." file_path Hdot).
  apply dict_get_None_iff in Hnot. by rewrite Hnot.
Qed.

Lemma load_single_document_no_dot_witness :
  load_single_document (sample_loader 1) "docs/LICENSE" =
  Raise (ValueError "Unsupported file extension '.docs/LICENSE'").
Proof.
  apply (load_single_document_no_dot (sample_loader 1) "docs/LICENSE").
  - reflexivity.
  - apply dict_get_None_iff. reflexivity.
Defined.

(** ** The files [load_documents] collects *)

(** X3: when [glob] returns, for a pattern [.../**/*ext], only paths that
    end with [ext], every collected file is handed to the loader mapped to
    the extension it was matched under: [load_documents] never meets the
    unsupported-extension error. *)
Theorem load_documents_files_supported
    (loader_load : Loader → result (list Document))
    (glob_glob : string → list string) (source_dir f : string) :
  (∀ ext path,
     ext ∈ dict_keys LOADER_MAPPING →
     path ∈ glob_glob (glob_pattern source_dir ext) →
     ∃ stem, path = stem +:+ ext) →
  f ∈ all_files glob_glob source_dir →
  ∃ ext cls args,
    f ∈ glob_glob (glob_pattern source_dir ext) ∧
    (ext, (cls, args)) ∈ LOADER_MAPPING ∧
    load_single_document loader_load f =
      bind (loader_load (mkLoader cls f args)) index0.
Proof.
  intros Hglob (ext & Hkey & Hf)%elem_of_all_files.
  destruct (Hglob ext f Hkey Hf) as [stem ->].
  pose proof Hkey as [[cls args] Hget]%dict_get_is_Some_iff.
  apply dict_get_Some_elem_of in Hget.
  exists ext, cls, args. split; [done|]. split; [done|].
  by apply load_single_document_suffix.
Qed.

(** X4: when moreover [glob] lists no path twice for one pattern, no file
    is collected twice: a path cannot end with two different keys. *)
Theorem all_files_NoDup (glob_glob : string → list string) (source_dir : string) :
  (∀ ext path,
     ext ∈ dict_keys LOADER_MAPPING →
     path ∈ glob_glob (glob_pattern source_dir ext) →
     ∃ stem, path = stem +:+ ext) →
  (∀ ext, ext ∈ dict_keys LOADER_MAPPING →
          NoDup (glob_glob (glob_pattern source_dir ext))) →
  NoDup (all_files glob_glob source_dir).
Proof.
  intros Hglob Hnodup. rewrite all_files_bind.
  apply NoDup_bind; [|done|apply LOADER_MAPPING_NoDup].
  intros ext1 ext2 path H1 H2 Hp1 Hp2.
  destruct (Hglob ext1 path H1 Hp1) as [stem1 E1].
  destruct (Hglob ext2 path H2 Hp2) as [stem2 E2].
  rewrite <- (path_ext_key stem1 ext1 H1), <- (path_ext_key stem2 ext2 H2).
  by rewrite <- E1, <- E2.
Qed.

Local Ltac eval_sample_glob :=
  match goal with
  | |- context [sample_glob ?p] =>
      let v := eval vm_compute in (sample_glob p) in
      change (sample_glob p) with v
  end.

Lemma sample_glob_suffix ext path :
  ext ∈ dict_keys LOADER_MAPPING →
  path ∈ sample_glob (glob_pattern "docs" ext) →
  ∃ stem, path = stem +:+ ext.
Proof.
  rewrite LOADER_MAPPING_keys, !elem_of_cons. intros H.
  repeat (destruct H as [->|H];
    [eval_sample_glob;
     first [ by intros ?%elem_of_nil
           | intros ->%list_elem_of_singleton;
             first [ by exists "docs/c" | by exists "docs/sub/b"
                   | by exists "docs/a" ] ]|]).
  by apply elem_of_nil in H.
Qed.

Lemma sample_glob_NoDup ext :
  ext ∈ dict_keys LOADER_MAPPING → NoDup (sample_glob (glob_pattern "docs" ext)).
Proof.
  rewrite LOADER_MAPPING_keys, !elem_of_cons. intros H.
  repeat (destruct H as [->|H];
    [eval_sample_glob; first [apply NoDup_nil_2 | apply NoDup_singleton]|]).
  by apply elem_of_nil in H.
Qed.

Lemma load_documents_files_supported_witness :
  ∃ ext cls args,
    "docs/sub/b.pdf" ∈ sample_glob (glob_pattern "docs" ext) ∧
    (ext, (cls, args)) ∈ LOADER_MAPPING ∧
    load_single_document (sample_loader 1) "docs/sub/b.pdf" =
      bind (sample_loader 1 (mkLoader cls "docs/sub/b.pdf" args)) index0.
Proof.
  apply (load_documents_files_supported (sample_loader 1) sample_glob "docs"
           "docs/sub/b.pdf" sample_glob_suffix).
  apply list_elem_of_further, list_elem_of_here.
Defined.

Lemma all_files_NoDup_witness : NoDup (all_files sample_glob "docs").
Proof.
  apply (all_files_NoDup sample_glob "docs" sample_glob_suffix sample_glob_NoDup).
Defined.

(** ** Failures of [load_documents] *)

Lemma collect_unordered_raises {A B} (f : A → result B) (xs : list A)
    completion acc i x e :
  i ∈ completion → xs !! i = Some x → f x = Raise e →
  ∃ x' e', x' ∈ xs ∧ f x' = Raise e' ∧
           collect_unordered f xs completion acc = Raise e'.
Proof.
  intros Hi Hx He. revert acc.
  induction completion as [|j rest IH]; intros acc.
  - by apply elem_of_nil in Hi.
  - simpl. destruct (xs !! j) as [y|] eqn:Hj.
    + destruct (f y) as [b|e'] eqn:Hy.
      * apply elem_of_cons in Hi as [->|Hi]; [congruence | by apply IH].
      * exists y, e'. split; [by eapply list_elem_of_lookup_2 | done].
    + apply elem_of_cons in Hi as [->|Hi]; [congruence | by apply IH].
Qed.

Lemma collect_unordered_nil {A B} (f : A → result B) completion acc :
  collect_unordered f [] completion acc = Ok acc.
Proof. induction completion as [|i rest IH]; simpl; [done | apply IH]. Qed.

(** X5: one file that fails to load fails the whole call: with a pool and
    every task run, if [load_single_document] raises on some collected
    file, [load_documents] returns no list and raises the exception of a
    collected file (the first failing one to finish). *)
Theorem load_documents_one_failure
    (loader_load : Loader → result (list Document))
    (glob_glob : string → list string) (cpu_count : option nat)
    (completion : list nat) (source_dir f : string) (e : exn) :
  let files := all_files glob_glob source_dir in
  (∃ n, cpu_count = Some n ∧ 2 ≤ n) →
  completion ≡ₚ seq 0 (length files) →
  f ∈ files →
  load_single_document loader_load f = Raise e →
  ∃ f' e',
    f' ∈ files ∧
    load_single_document loader_load f' = Raise e' ∧
    load_documents loader_load glob_glob cpu_count completion source_dir
      = Raise e'.
Proof.
  intros files (n & -> & Hn) Hperm Hf He.
  apply list_elem_of_lookup in Hf as [i Hi].
  assert (i ∈ completion) as Hic.
  { rewrite Hperm. apply elem_of_seq. apply lookup_lt_Some in Hi. lia. }
  unfold load_documents. rewrite make_pool_ok by done. simpl.
  by apply (collect_unordered_raises _ _ _ _ i f e).
Qed.

Lemma load_documents_one_failure_witness :
  ∃ f' e',
    f' ∈ all_files glob_one_csv "docs" ∧
    load_single_document (sample_loader 0) f' = Raise e' ∧
    load_documents (sample_loader 0) glob_one_csv (Some 2) [0] "docs" = Raise e'.
Proof.
  apply (load_documents_one_failure (sample_loader 0) glob_one_csv (Some 2) [0]
           "docs" "docs/empty.csv" (IndexError "list index out of range")).
  - exists 2. split; [reflexivity | lia].
  - reflexivity.
  - apply list_elem_of_here.
  - reflexivity.
Defined.

(** X6: a directory in which no pattern matches anything gives the empty
    list, provided the pool can be created. *)
Theorem load_documents_no_match
    (loader_load : Loader → result (list Document))
    (glob_glob : string → list string) (n : nat) (completion : list nat)
    (source_dir : string) :
  2 ≤ n →
  (∀ ext, ext ∈ dict_keys LOADER_MAPPING →
          glob_glob (glob_pattern source_dir ext) = []) →
  load_documents loader_load glob_glob (Some n) completion source_dir = Ok [].
Proof.
  intros Hn Hnone. unfold load_documents. rewrite make_pool_ok by done. simpl.
  assert (all_files glob_glob source_dir = []) as ->.
  { apply elem_of_nil_inv. intros f (ext & Hk & Hf)%elem_of_all_files.
    rewrite (Hnone ext Hk) in Hf. by apply elem_of_nil in Hf. }
  apply collect_unordered_nil.
Qed.

Lemma load_documents_no_match_witness :
  load_documents (sample_loader 1) (λ _, []) (Some 8) [] "empty_dir" = Ok [].
Proof.
  apply (load_documents_no_match (sample_loader 1) (λ _, []) 8 [] "empty_dir").
  - lia.
  - reflexivity.
Defined.

(** X7: the pool is asked for [os.cpu_count() - 1] processes, so with one
    CPU (or none reported) [load_documents] raises before any file is
    loaded, whatever the directory holds. *)
Theorem load_documents_needs_two_cpus
    (loader_load : Loader → result (list Document))
    (glob_glob : string → list string) (completion : list nat)
    (source_dir : string) (n : nat) :
  n ≤ 1 →
  load_documents loader_load glob_glob (Some n) completion source_dir =
    Raise (ValueError "Number of processes must be at least 1") ∧
  ∃ msg,
    load_documents loader_load glob_glob None completion source_dir =
    Raise (TypeError msg).
Proof.
  intros Hn. unfold load_documents, make_pool. split; [|by eexists].
  rewrite decide_True by lia. done.
Qed.

Lemma load_documents_needs_two_cpus_witness :
  load_documents (sample_loader 2) sample_glob (Some 1) [2; 0; 1] "docs" =
  Raise (ValueError "Number of processes must be at least 1").
Proof.
  apply (load_documents_needs_two_cpus (sample_loader 2) sample_glob [2; 0; 1]
           "docs" 1).
  lia.
Defined.

(** ** Failures of [main] and what it leaves untouched *)

Section MainOutcome.

Variable loader_load : Loader → result (list Document).
Variable glob_glob : string → list string.
Variable cpu_count : option nat.
Variable completion : list nat.
Variable split_text : TextSplitter → string → list string.
Variable Vector : Type.
Variable embed_documents : option string → string → Vector.
Variable CHROMA_SETTINGS : Settings.
Variable environ : gmap string string.

Local Abbreviation run_main :=
  (main loader_load glob_glob cpu_count completion split_text Vector
        embed_documents CHROMA_SETTINGS environ).
Local Abbreviation source_directory :=
  (environ_get_default environ "SOURCE_DIRECTORY" "source_documents").
Local Abbreviation loaded :=
  (load_documents loader_load glob_glob cpu_count completion source_directory).

(** X8: when loading fails, [main] ends with the exception of
    [load_documents] after printing its first line only; nothing is split,
    embedded or stored. *)
Theorem main_load_failure (w : World Vector) (e : exn) :
  loaded = Raise e →
  run_main w =
  (mkWorld (stdout w ++ ["Loading documents from " +:+ source_directory])
     (disk w),
   Raise e).
Proof.
  intros Hload.
  unfold main, and_then, print, lift. simpl. by rewrite Hload.
Qed.



End MainOutcome.

Lemma main_load_failure_witness :
  main (sample_loader 0) glob_one_csv (Some 4) [0] window_split nat sample_embed
    ∅ sample_environ (mkWorld [] ∅) =
  (mkWorld ["Loading documents from docs"] ∅,
   Raise (IndexError "list index out of range")).
Proof.
  apply (main_load_failure (sample_loader 0) glob_one_csv (Some 4) [0]
           window_split nat sample_embed ∅ sample_environ (mkWorld [] ∅)).
  reflexivity.
Defined.



Example used_run_other_index :
  disk used_run.1 !! "other" = Some [(7, sample_document "x" 0)] ∧
  used_run.2 = Ok ().
Proof. split; reflexivity. Qed.



(** ** The source directory *)

Lemma append_assoc (a b c : string) : (a +:+ b) +:+ c = a +:+ (b +:+ c).
Proof.
  induction a as [|x a IH]; [done|].
  change (String x ((a +:+ b) +:+ c) = String x (a +:+ (b +:+ c))).
  by rewrite IH.
Qed.

Lemma rev_app_append (a b c : string) :
  String.rev_app (a +:+ b) c = String.rev_app b (String.rev_app a c).
Proof.
  revert c. induction a as [|x a IH]; intros c; [done|].
  change (String.rev_app (a +:+ b) (String x c)
          = String.rev_app b (String.rev_app a (String x c))).
  apply IH.
Qed.

Lemma ends_with_slash_append a : ends_with_slash (a +:+ "/") = true.
Proof.
  unfold ends_with_slash, String.rev. by rewrite rev_app_append.
Qed.

Lemma glob_pattern_trailing_slash source_dir ext :
  source_dir ≠ "" → ends_with_slash source_dir = false →
  glob_pattern (source_dir +:+ "/") ext = glob_pattern source_dir ext.
Proof.
  intros Hne Hslash. unfold glob_pattern, path_join.
  rewrite ends_with_slash_append, Hslash.
  rewrite (bool_decide_eq_false_2 (source_dir = "")) by done.
  rewrite bool_decide_eq_false_2; [apply append_assoc|].
  destruct source_dir; [done | discriminate].
Qed.

(** X11: a slash at the end of the source directory makes no difference:
    the patterns, hence the files collected and the documents loaded, are
    those of the directory written without it. *)
Theorem load_documents_trailing_slash
    (loader_load : Loader → result (list Document))
    (glob_glob : string → list string) (cpu_count : option nat)
    (completion : list nat) (source_dir : string) :
  source_dir ≠ "" → ends_with_slash source_dir = false →
  all_files glob_glob (source_dir +:+ "/") = all_files glob_glob source_dir ∧
  load_documents loader_load glob_glob cpu_count completion (source_dir +:+ "/")
  = load_documents loader_load glob_glob cpu_count completion source_dir.
Proof.
  intros Hne Hslash.
  assert (all_files glob_glob (source_dir +:+ "/")
          = all_files glob_glob source_dir) as Hfiles.
  { rewrite !all_files_bind. apply list_bind_ext; [|done].
    intros ext. by rewrite glob_pattern_trailing_slash. }
  split; [done|]. unfold load_documents. by rewrite Hfiles.
Qed.

Lemma load_documents_trailing_slash_witness :
  all_files sample_glob ("docs" +:+ "/") = all_files sample_glob "docs" ∧
  load_documents (sample_loader 2) sample_glob (Some 4) [2; 0; 1] ("docs" +:+ "/")
  = load_documents (sample_loader 2) sample_glob (Some 4) [2; 0; 1] "docs".
Proof.
  apply (load_documents_trailing_slash (sample_loader 2) sample_glob (Some 4)
           [2; 0; 1] "docs").
  - discriminate.
  - reflexivity.
Defined.

End IngestMore.

(** * Further properties of privateGPT.py *)

Module PrivateGPTMore.
Import Py PrivateGPT PrivateGPTScenarios PrivateGPTSpec.

Section Script.

Variable CHROMA_SETTINGS : Settings.
Variable py_int : string → result Z.
Variable from_pretrained : string → option string → bool → result unit.
Variable similarity_search : Chroma → string → Z → result (list Document).
Variable llm_generate : LLM → list Document → string → result string.

Local Abbreviation run_main :=
  (main CHROMA_SETTINGS py_int from_pretrained similarity_search llm_generate).
Local Abbreviation run_select_llm := (select_llm py_int from_pretrained).
Local Abbreviation run_loop := (interactive_loop similarity_search llm_generate).
Local Abbreviation run_hf := (create_HuggingFace_pipeline py_int from_pretrained).

(** ** Building the language model *)

(** X12: [create_HuggingFace_pipeline] never raises: either every step
    succeeds, nothing is printed and the pipeline object is returned, or
    the exception of the first failing step is printed and the result is
    [None]. *)
Theorem create_HuggingFace_pipeline_never_raises
    (model_path model_n_ctx : option string) (tr : list event) :
  (∃ max_length,
     int_opt py_int model_n_ctx = Ok max_length ∧
     run_hf model_path model_n_ctx tr =
     (tr, Ok (PyLLM (HuggingFacePipeline model_path true "text2text-generation"
                       max_length 20)))) ∨
  (∃ e,
     run_hf model_path model_n_ctx tr = (tr ++ [EPrint (exn_str e)], Ok PyNone)).
Proof.
  unfold create_HuggingFace_pipeline, try_except, and_then, lift, ret, print,
    emit.
  destruct (from_pretrained "AutoTokenizer" model_path true) as [[]|e]; simpl;
    [|right; by exists e].
  destruct (from_pretrained "AutoModelForSeq2SeqLM" model_path true) as [[]|e];
    simpl; [|right; by exists e].
  destruct (int_opt py_int model_n_ctx) as [n|e]; simpl; [|right; by exists e].
  left. by exists n.
Qed.

(** X13: without [MODEL_N_CTX] the HuggingFace pipeline cannot be built:
    [int(None)] raises inside the [try], so the result is always [None]
    with one line printed, even when the model files load. *)
Theorem create_HuggingFace_pipeline_needs_n_ctx
    (model_path : option string) (tr : list event) :
  ∃ line, run_hf model_path None tr = (tr ++ [EPrint line], Ok PyNone).
Proof.
  destruct (create_HuggingFace_pipeline_never_raises model_path None tr)
    as [(n & Hn & _)|[e He]]; [done|].
  by exists (exn_str e).
Qed.


Lemma and_then_ext {A B} (c : M A) (k1 k2 : A → M B) tr :
  (∀ a tr', k1 a tr' = k2 a tr') → and_then c k1 tr = and_then c k2 tr.
Proof. intros H. unfold and_then. destruct (c tr) as [tr' [a|e]]; [apply H | done]. Qed.

(** The loop reads [args] for [hide_source] only. *)
Lemma interactive_loop_args qa args1 args2 stdin tr :
  hide_source args1 = hide_source args2 →
  run_loop qa args1 stdin tr = run_loop qa args2 stdin tr.
Proof.
  intros Hh. revert tr. induction stdin as [|query rest IH]; intros tr; [done|].
  cbn [interactive_loop]. apply and_then_ext. intros _ tr1.
  case_decide; [done|]. apply and_then_ext. intros res tr2. rewrite Hh.
  repeat (apply and_then_ext; intros). apply IH.
Qed.

(** X15: with the HuggingFace back end [--mute-stream] changes nothing:
    the pipeline is built without the callback list. *)
Theorem main_huggingface_ignores_mute_stream
    (cfg : Config) (environ : gmap string string) (given : list cli_option)
    (stdin : list string) (tr : list event) :
  model_type cfg = Some "HuggingFace" →
  run_main cfg environ (opt_mute_stream :: given) stdin tr =
  run_main cfg environ given stdin tr.
Proof.
  intros Hhf.
  assert (hide_source (parse_arguments (opt_mute_stream :: given))
          = hide_source (parse_arguments given)) as Hh.
  { simpl. apply bool_decide_ext. rewrite elem_of_cons.
    split; [by intros [?|?] | by right]. }
  unfold main. rewrite Hh.
  assert (∀ cbs1 cbs2 tr0,
            run_select_llm cfg environ cbs1 tr0 = run_select_llm cfg environ cbs2 tr0)
    as Hsel.
  { intros. unfold select_llm. rewrite Hhf.
    repeat case_decide; try congruence; done. }
  unfold and_then at 1 4.
  rewrite (Hsel _ (if mute_stream (parse_arguments given) then []
                   else [StreamingStdOutCallbackHandler]) tr).
  destruct (run_select_llm _ _ _ tr) as [tr1 [llm|e]]; [|done].
  repeat (apply and_then_ext; intros). by apply interactive_loop_args.
Qed.

(** ** Module level *)

(** X16: [N_GPU_LAYERS] is converted at module level for every back end:
    a value that [int] rejects ends the script with that exception before
    [main] runs, whatever [MODEL_TYPE] is. *)
Theorem script_invalid_n_gpu_layers
    (environ : gmap string string) (given : list cli_option)
    (stdin : list string) (k : Z) (s : string) (e : exn) :
  int_environ py_int environ "TARGET_SOURCE_CHUNKS" 4 = Ok k →
  environ !! "N_GPU_LAYERS" = Some s →
  py_int s = Raise e →
  script CHROMA_SETTINGS py_int from_pretrained similarity_search llm_generate
    environ given stdin = ([], Raise e).
Proof.
  intros Hk Hs He. unfold script, module_init. rewrite Hk. simpl.
  unfold int_environ, environ_get. rewrite Hs, He. done.
Qed.

(** ** The loop *)

(** X17: nothing after the first ["exit"] is read: the run is the same
    whatever follows it on standard input. *)
Theorem interactive_loop_ignores_after_exit
    (qa : RetrievalQA) (args : Args) (before after : list string)
    (tr : list event) :
  run_loop qa args (before ++ "exit" :: after) tr =
  run_loop qa args (before ++ ["exit"]) tr.
Proof.
  revert tr. induction before as [|query rest IH]; intros tr; [done|].
  cbn [app interactive_loop]. apply and_then_ext. intros _ tr1.
  case_decide; [done|].
  repeat (apply and_then_ext; intros). apply IH.
Qed.

(** X18: [main] returns normally only when ["exit"] was entered; in every
    other run it ends with an exception. *)
Theorem main_returns_only_on_exit
    (cfg : Config) (environ : gmap string string) (given : list cli_option)
    (stdin : list string) (tr tr' : list event) :
  run_main cfg environ given stdin tr = (tr', Ok ()) →
  "exit" ∈ stdin.
Proof.
  unfold main. unfold and_then at 1.
  destruct (run_select_llm _ _ _ tr) as [tr1 [[llm|]|e]]; simpl; [| |done].
  - destruct llm as [|llm]; simpl; [done|].
    unfold and_then, read_local, from_chain_type, ret. simpl.
    match goal with
    | |- context [run_loop ?qa ?args stdin tr1] =>
        destruct (loop_trace similarity_search llm_generate qa args stdin tr1)
          as (new & r & -> & _ & Hok)
    end.
    intros [= _ ->]. by apply Hok.
  - unfold and_then, read_local, raise. simpl. done.
Qed.

(** X19: when the chain call fails, in the search or in the model, the
    turn prints nothing: the run ends with that exception right after the
    chain call, and no further line is read. *)
Theorem interactive_loop_chain_failure
    (qa : RetrievalQA) (args : Args) (query : string) (rest : list string)
    (tr : list event) (e : exn) :
  query ≠ "exit" →
  bind (similarity_search (vectorstore (chain_retriever qa)) query
          (search_k (chain_retriever qa)))
       (λ docs, llm_generate (chain_llm qa) docs query) = Raise e →
  run_loop qa args (query :: rest) tr =
  (tr ++ [EInput input_prompt; EChainCall query], Raise e).
Proof.
  intros Hq Hfail. cbn [interactive_loop].
  unfold and_then at 1. unfold emit at 1. rewrite decide_False by done.
  unfold and_then at 1. rewrite qa_call_eq.
  destruct (similarity_search _ _ _) as [docs|e1]; simpl in *.
  - destruct (llm_generate _ _ _) as [answer|e2]; simpl in *; [done|].
    injection Hfail as ->. by rewrite <- !app_assoc.
  - injection Hfail as ->. by rewrite <- !app_assoc.
Qed.

(** X20: without [--hide-source], a retrieved passage with no ["source"]
    entry in its metadata ends the printing with a [KeyError]: the sources
    of the passages before it are printed, its own and the later ones are
    not. *)
Theorem print_sources_missing_source
    (before after : list Document) (document : Document) (tr : list event) :
  (∀ d, d ∈ before → is_Some (metadata d !! "source")) →
  metadata document !! "source" = None →
  print_sources (before ++ document :: after) tr =
  (tr ++ source_events before, Raise (KeyError "source")).
Proof.
  intros Hbefore Hnone. revert tr.
  induction before as [|d before IH]; intros tr.
  - cbn [app print_sources]. unfold and_then, subscript, raise.
    rewrite Hnone. simpl. by rewrite app_nil_r.
  - rewrite source_events_cons. cbn [app print_sources].
    destruct (Hbefore d (list_elem_of_here _ _)) as [src Hd].
    unfold and_then at 1, subscript, ret. rewrite Hd.
    unfold and_then at 1, print, emit. simpl.
    unfold and_then at 1. simpl. rewrite IH.
    + by rewrite <- !app_assoc.
    + intros d' Hd'. apply Hbefore. by apply list_elem_of_further.
Qed.

(** Answered turns: the loop goes through them one by one and leaves their
    events in the trace. *)
Lemma interactive_loop_answered_turns
    (qa : RetrievalQA) (args : Args) (docs_of : string → list Document)
    (answer_of : string → string) (queries tail : list string)
    (tr : list event) :
  return_source_documents qa = negb (hide_source args) →
  (∀ q, q ∈ queries →
     q ≠ "exit" ∧
     similarity_search (vectorstore (chain_retriever qa)) q
       (search_k (chain_retriever qa)) = Ok (docs_of q) ∧
     llm_generate (chain_llm qa) (docs_of q) q = Ok (answer_of q) ∧
     (hide_source args = false →
      ∀ d, d ∈ docs_of q → is_Some (metadata d !! "source"))) →
  run_loop qa args (queries ++ tail) tr =
  run_loop qa args tail
    (tr ++ (queries ≫= λ q,
              turn_events (hide_source args) q (answer_of q) (docs_of q))).
Proof.
  intros Hrsd Hall. revert tr.
  induction queries as [|q queries IH]; intros tr.
  - simpl. by rewrite app_nil_r.
  - destruct (Hall q (list_elem_of_here _ _)) as (Hq & Hs & Hl & Hsrc).
    cbn [app]. rewrite (loop_answered _ _ _ _ _ _ _ (docs_of q) (answer_of q))
      by done.
    unfold and_then.
    assert (print_sources (if hide_source args then [] else docs_of q)
              (tr ++ [EInput input_prompt; EChainCall q]
                  ++ answer_events q (answer_of q))
            = (tr ++ turn_events (hide_source args) q (answer_of q) (docs_of q),
               Ok ())) as ->.
    { unfold turn_events. destruct (hide_source args).
      - reflexivity.
      - rewrite print_sources_ok by (by apply Hsrc). by rewrite <- !app_assoc. }
    rewrite IH.
    + cbn [mbind list_bind]. by rewrite <- !app_assoc.
    + intros q' Hq'. apply Hall. by apply list_elem_of_further.
Qed.

(** X21: a session in which every query is answered and that ends with
    ["exit"] returns normally, and its trace is the turns of the queries
    in the order entered (prompt, chain call, question, answer, sources
    unless hidden) followed by the last prompt. *)
Theorem interactive_loop_session
    (qa : RetrievalQA) (args : Args) (docs_of : string → list Document)
    (answer_of : string → string) (queries after : list string)
    (tr : list event) :
  return_source_documents qa = negb (hide_source args) →
  (∀ q, q ∈ queries →
     q ≠ "exit" ∧
     similarity_search (vectorstore (chain_retriever qa)) q
       (search_k (chain_retriever qa)) = Ok (docs_of q) ∧
     llm_generate (chain_llm qa) (docs_of q) q = Ok (answer_of q) ∧
     (hide_source args = false →
      ∀ d, d ∈ docs_of q → is_Some (metadata d !! "source"))) →
  run_loop qa args (queries ++ "exit" :: after) tr =
  (tr ++ (queries ≫= λ q,
            turn_events (hide_source args) q (answer_of q) (docs_of q))
      ++ [EInput input_prompt],
   Ok ()).
Proof.
  intros Hrsd Hall.
  rewrite (interactive_loop_answered_turns qa args docs_of answer_of) by done.
  rewrite loop_exit. by rewrite <- !app_assoc.
Qed.

(** X22: when standard input ends without ["exit"], every query is still
    answered, and the run then ends with the [EOFError] of [input] after
    one more prompt. *)
Theorem interactive_loop_end_of_input
    (qa : RetrievalQA) (args : Args) (docs_of : string → list Document)
    (answer_of : string → string) (queries : list string) (tr : list event) :
  return_source_documents qa = negb (hide_source args) →
  (∀ q, q ∈ queries →
     q ≠ "exit" ∧
     similarity_search (vectorstore (chain_retriever qa)) q
       (search_k (chain_retriever qa)) = Ok (docs_of q) ∧
     llm_generate (chain_llm qa) (docs_of q) q = Ok (answer_of q) ∧
     (hide_source args = false →
      ∀ d, d ∈ docs_of q → is_Some (metadata d !! "source"))) →
  run_loop qa args queries tr =
  (tr ++ (queries ≫= λ q,
            turn_events (hide_source args) q (answer_of q) (docs_of q))
      ++ [EInput input_prompt],
   Raise EOFError).
Proof.
  intros Hrsd Hall.
  rewrite <- (app_nil_r queries) at 1.
  rewrite (interactive_loop_answered_turns qa args docs_of answer_of) by done.
  simpl. unfold and_then, emit, raise. simpl. by rewrite <- !app_assoc.
Qed.

End Script.

(** ** Runs *)

Example huggingface_without_n_ctx :
  create_HuggingFace_pipeline sample_int sample_from_pretrained
    (Some "models/flan") None [] =
  ([EPrint "int() argument must be a string, a bytes-like object or a real number, not 'NoneType'"],
   Ok PyNone).
Proof. reflexivity. Qed.

Example huggingface_missing_files :
  create_HuggingFace_pipeline sample_int missing_from_pretrained
    (Some "models/flan") (Some "512") [] =
  ([EPrint "no local files for AutoTokenizer"], Ok PyNone).
Proof. reflexivity. Qed.


Lemma main_huggingface_ignores_mute_stream_witness :
  main ∅ sample_int sample_from_pretrained sample_search sample_llm
    (huggingface_cfg (Some "512")) ∅ [opt_mute_stream] ["Who wrote it?"; "exit"] []
  = main ∅ sample_int sample_from_pretrained sample_search sample_llm
      (huggingface_cfg (Some "512")) ∅ [] ["Who wrote it?"; "exit"] [].
Proof.
  apply (main_huggingface_ignores_mute_stream ∅ sample_int
           sample_from_pretrained sample_search sample_llm
           (huggingface_cfg (Some "512")) ∅ [] ["Who wrote it?"; "exit"] []).
  reflexivity.
Defined.

Lemma script_invalid_n_gpu_layers_witness :
  script ∅ sample_int sample_from_pretrained sample_search sample_llm
    bad_layers_environ [] ["exit"] =
  ([], Raise (ValueError "invalid literal for int() with base 10: 'many'")).
Proof.
  apply (script_invalid_n_gpu_layers ∅ sample_int sample_from_pretrained
           sample_search sample_llm bad_layers_environ [] ["exit"] 4 "many");
    reflexivity.
Defined.

Lemma main_returns_only_on_exit_witness :
  "exit" ∈ ["Who wrote it?"; "exit"; "never read"].
Proof.
  apply (main_returns_only_on_exit ∅ sample_int sample_from_pretrained
           sample_search sample_llm sample_cfg sample_environ []
           ["Who wrote it?"; "exit"; "never read"] []
           (main ∅ sample_int sample_from_pretrained sample_search sample_llm
              sample_cfg sample_environ []
              ["Who wrote it?"; "exit"; "never read"] []).1).
  reflexivity.
Defined.

Lemma interactive_loop_chain_failure_witness :
  interactive_loop unreachable_search sample_llm (sample_chain true)
    (mkArgs false false) ["Who wrote it?"; "exit"] [] =
  ([] ++ [EInput input_prompt; EChainCall "Who wrote it?"],
   Raise (ExternalError "index unavailable")).
Proof.
  apply (interactive_loop_chain_failure unreachable_search sample_llm
           (sample_chain true) (mkArgs false false) "Who wrote it?" ["exit"] []).
  - discriminate.
  - reflexivity.
Defined.

Lemma print_sources_missing_source_witness :
  print_sources
    ([sample_passage 0] ++ mkDocument "stray text" ∅ :: [sample_passage 2]) [] =
  ([] ++ source_events [sample_passage 0], Raise (KeyError "source")).
Proof.
  apply (print_sources_missing_source [sample_passage 0] [sample_passage 2]
           (mkDocument "stray text" ∅) []).
  - intros d ->%list_elem_of_singleton. by eexists.
  - reflexivity.
Defined.

(** The same seen from the loop: the answer is printed, then the first
    source, then the run ends. *)
Example unsourced_session :
  interactive_loop unsourced_search sample_llm (sample_chain true)
    (mkArgs false false) ["Who wrote it?"; "exit"] [] =
  ([ EInput input_prompt; EChainCall "Who wrote it?";
     EPrint (nl +:+ nl +:+ "> Question:"); EPrint "Who wrote it?";
     EPrint (nl +:+ "> Answer:"); EPrint "Answer to: Who wrote it?";
     EPrint (nl +:+ "> docs/file0.txt:"); EPrint "passage 0" ],
   Raise (KeyError "source")).
Proof. reflexivity. Qed.

Lemma sample_queries_answered (hidden : bool) q :
  q ∈ ["Who wrote it?"; "When?"] →
  q ≠ "exit" ∧
  sample_search (vectorstore (chain_retriever (sample_chain (negb hidden)))) q
    (search_k (chain_retriever (sample_chain (negb hidden))))
    = Ok (sample_docs_of q) ∧
  sample_llm (chain_llm (sample_chain (negb hidden))) (sample_docs_of q) q
    = Ok (sample_answer_of q) ∧
  (hide_source (mkArgs hidden false) = false →
   ∀ d, d ∈ sample_docs_of q → is_Some (metadata d !! "source")).
Proof.
  intros Hq. split; [|split; [done|split; [done|]]].
  - rewrite !elem_of_cons in Hq.
    destruct Hq as [->|[->|Hq]]; [discriminate..|by apply elem_of_nil in Hq].
  - intros _ d (i & -> & _)%list_elem_of_fmap. by eexists.
Qed.

Lemma interactive_loop_session_witness :
  interactive_loop sample_search sample_llm (sample_chain true)
    (mkArgs false false) (["Who wrote it?"; "When?"] ++ "exit" :: ["never read"])
    [] =
  ([] ++ (["Who wrote it?"; "When?"] ≫= λ q,
            turn_events false q (sample_answer_of q) (sample_docs_of q))
      ++ [EInput input_prompt],
   Ok ()).
Proof.
  apply (interactive_loop_session sample_search sample_llm (sample_chain true)
           (mkArgs false false) sample_docs_of sample_answer_of
           ["Who wrote it?"; "When?"] ["never read"] []).
  - reflexivity.
  - apply (sample_queries_answered false).
Defined.

Lemma interactive_loop_end_of_input_witness :
  interactive_loop sample_search sample_llm (sample_chain false)
    (mkArgs true false) ["Who wrote it?"; "When?"] [] =
  ([] ++ (["Who wrote it?"; "When?"] ≫= λ q,
            turn_events true q (sample_answer_of q) (sample_docs_of q))
      ++ [EInput input_prompt],
   Raise EOFError).
Proof.
  apply (interactive_loop_end_of_input sample_search sample_llm
           (sample_chain false) (mkArgs true false) sample_docs_of
           sample_answer_of ["Who wrote it?"; "When?"] []).
  - reflexivity.
  - apply (sample_queries_answered true).
Defined.

End PrivateGPTMore.
